(** * Hackathon evaluation scripts: submission ingestion, prompt
      construction, tolerant reply parsing, score normalisation and the
      leaderboard.

    The development embeds the logic of the four evaluation scripts
    [eval.py], [eval1.py], [eval2.py] and [evaltable.py].  The scripts are
    near copies of each other; a [variant] value selects the script wherever
    their code differs.

    External collaborators (the document readers, the JSON decoder, the
    remote model, Python's ordering of decoded values) are not part of the
    repository.  Their answers are attached to the inputs (what a reader
    returns for a file is a field of that file) or taken as section
    variables. *)

From Stdlib Require Import Ascii String.
From Stdlib Require Import List ZArith NArith Bool Lia.
From Stdlib Require Import Permutation Sorted PrimFloat.
Import ListNotations.

Set Warnings "-register-all".

(** ** Python values used by the scripts *)

Module Py.

(** A Python [str] is a sequence of Unicode code points. *)
Definition char := N.
Definition str := list char.

(** An ASCII literal of the source. *)
Definition lit (s : string) : str :=
  map N_of_ascii (list_ascii_of_string s).

(** A literal of the source in which every double quote is written as an
    apostrophe; used for the JSON skeletons of the prompt templates, none of
    which contains an apostrophe of its own. *)
Definition litq (s : string) : str :=
  map (fun c => if N.eqb c 39 then 34%N else c) (lit s).

Definition nl : str := [10%N].

Definition str_eqb (a b : str) : bool :=
  if list_eq_dec N.eq_dec a b then true else false.

(** [len(s)] *)
Definition len (s : str) : Z := Z.of_nat (length s).

(** [sep.join(parts)] *)
Fixpoint join (sep : str) (parts : list str) : str :=
  match parts with
  | [] => []
  | [p] => p
  | p :: rest => p ++ sep ++ join sep rest
  end.

(** [s.lower()].  On ASCII text this is exactly Python's [str.lower]; code
    points outside ASCII are left as they are (the Unicode case tables are
    not carried by the model).  Python lowers some of them, and a few to
    ASCII letters (U+212A, the Kelvin sign, to [k]), so what is stated of
    the lowering of a name is stated for ASCII names. *)
Definition lower_char (c : char) : char :=
  if (65 <=? c)%N && (c <=? 90)%N then (c + 32)%N else c.

Definition lower (s : str) : str := map lower_char s.

(** [s.split(sep)] for a one-character separator: never empty. *)
Fixpoint split (sep : char) (s : str) : list str :=
  match s with
  | [] => [[]]
  | c :: t =>
      if N.eqb c sep then [] :: split sep t
      else match split sep t with
           | h :: r => (c :: h) :: r
           | [] => [[c]]
           end
  end.

(** The characters [str.strip()] removes: those for which [str.isspace]
    holds. *)
Definition is_space (c : char) : bool :=
  ((9 <=? c) && (c <=? 13) || (28 <=? c) && (c <=? 32)
   || (c =? 133) || (c =? 160) || (c =? 5760)
   || (8192 <=? c) && (c <=? 8202)
   || (c =? 8232) || (c =? 8233) || (c =? 8239) || (c =? 8287)
   || (c =? 12288))%N.

Fixpoint lstrip (s : str) : str :=
  match s with
  | c :: t => if is_space c then lstrip t else s
  | [] => []
  end.

Definition rstrip (s : str) : str := rev (lstrip (rev s)).

(** [s.strip()] *)
Definition strip (s : str) : str := rstrip (lstrip s).

(** [s[:n]] for a non-negative [n]. *)
Definition slice_to (n : N) (s : str) : str := firstn (N.to_nat n) s.

(** Whether [p] is a prefix of [s]. *)
Fixpoint starts_with (p s : str) : bool :=
  match p, s with
  | [], _ => true
  | a :: p', b :: s' => N.eqb a b && starts_with p' s'
  | _ :: _, [] => false
  end.

(** [s.replace(old, new)] for a non-empty [old]: every occurrence, found
    from the left and never overlapping; [skip] counts the characters of an
    occurrence that are still to be passed over. *)
Fixpoint replace_from (old new : str) (skip : nat) (s : str) : str :=
  match s with
  | [] => []
  | c :: t =>
      match skip with
      | S k => replace_from old new k t
      | O => if starts_with old s
             then new ++ replace_from old new (pred (length old)) t
             else c :: replace_from old new 0 t
      end
  end.

Definition replace (old new s : str) : str := replace_from old new 0 s.

(** Exceptions.  Only subclasses of [Exception] occur; the model keeps the
    class as far as a handler of the scripts tells classes apart, and the
    text [str(e)] that the handlers print. *)
Inductive exn_class := JSONDecodeError | ValueError | OtherException.

Record exn := Exn { exn_cls : exn_class; exn_str : str }.

Inductive result (A : Type) :=
| Ok (a : A)
| Raise (e : exn).
Arguments Ok {A} a.
Arguments Raise {A} e.

Definition bind {A B} (r : result A) (k : A -> result B) : result B :=
  match r with
  | Ok a => k a
  | Raise e => Raise e
  end.

(** [try: r  except Exception: h] *)
Definition try_except {A} (r : result A) (h : exn -> result A) : result A :=
  match r with
  | Ok a => Ok a
  | Raise e => h e
  end.

(** Values a JSON text decodes to. *)
Inductive pyval :=
| PNone
| PBool (b : bool)
| PInt (z : Z)
| PFloat (f : float)
| PStr (s : str)
| PList (l : list pyval)
| PDict (d : list (str * pyval)).

Definition dict := list (str * pyval).

(** The value under key [k], if [k in d]. *)
Fixpoint dict_lookup (k : str) (d : dict) : option pyval :=
  match d with
  | [] => None
  | (k', v) :: rest => if str_eqb k k' then Some v else dict_lookup k rest
  end.

(** [d.get(k, default)] *)
Definition dict_get (d : dict) (k : str) (default : pyval) : pyval :=
  match dict_lookup k d with
  | Some v => v
  | None => default
  end.

End Py.

Import Py.

Notation "x <- r ;; k" := (bind r (fun x => k))
  (at level 61, r at next level, right associativity).

(** The four evaluation scripts. *)
Inductive variant := Eval | Eval1 | Eval2 | EvalTable.

(** ** Per-file text extraction ([extract_submission_text]) *)

Module Extractor.

(** What [Presentation(path)] and the loops over [prs.slides] and
    [slide.shapes] yield: the shapes of the slides that are read, each with
    its [text] attribute if it has one, and the exception, if any, that ends
    the iteration after them. *)
Record deck := Deck {
  slides : list (list (option str));
  fault : option exn
}.

(** One file of the unpacked archive, in the order [os.walk] yields it,
    together with what each reader of the scripts returns (or raises) when
    it is applied to the file. *)
Record file := File {
  fname : str;
  read_utf8 : result str;             (* open(path, encoding="utf-8").read() *)
  pdfminer_text : result str;         (* extract_text(path) *)
  fitz_pages : result (list str);     (* fitz.open(path), get_text per page *)
  docx_text : result str;             (* docx2txt.process(path) *)
  pptx : result deck                  (* Presentation(path) *)
}.

(** [ext = f.lower().split(".")[-1]] *)
Definition extension (f : str) : str := last (split 46%N (lower f)) [].

Inductive category :=
| Code | Pdf | Docx | Slides | Note | Video | Unsupported.

(** The [if ext == ... elif ...] chain, in the order of the source. *)
Definition classify (ext : str) : category :=
  if str_eqb ext (lit "py") then Code
  else if str_eqb ext (lit "pdf") then Pdf
  else if str_eqb ext (lit "docx") then Docx
  else if str_eqb ext (lit "pptx") then Slides
  else if str_eqb ext (lit "txt") || str_eqb ext (lit "md") then Note
  else if str_eqb ext (lit "mp4") || str_eqb ext (lit "mov")
          || str_eqb ext (lit "mkv") then Video
  else Unsupported.

(** ["\n\n[FILE: {f}{tag}]\n"] *)
Definition marker (f tag : str) : str :=
  nl ++ nl ++ lit "[FILE: " ++ f ++ tag ++ lit "]" ++ nl.

(** The PDF branch: pdfminer first; a short text or any exception falls back
    to PyMuPDF, whose own exceptions are not handled here. *)
Definition pdf_text (f : file) : result str :=
  try_except
    (text <- pdfminer_text f ;;
     if (len (strip text) <? 20)%Z
     then Raise (Exn ValueError (lit "Low text extraction"))
     else Ok text)
    (fun _ => pages <- fitz_pages f ;; Ok (concat pages)).

(** The texts of the shapes that have a [text] attribute, slide by slide. *)
Definition shape_texts (d : deck) : list str :=
  flat_map (fun slide =>
    flat_map (fun shape => match shape with Some t => [t] | None => [] end)
             slide) (slides d).

(** The slide branch after its marker.  [eval.py] collects the texts in a
    local list and appends them, joined by newlines, once the loops are
    over; the other scripts append each text, followed by a newline, as
    soon as it is read, so that what was read before an exception stays. *)
Definition append_slides (v : variant) (d : deck) (submission_text : str)
  : str * option exn :=
  match v with
  | Eval =>
      match fault d with
      | Some e => (submission_text, Some e)
      | None => (submission_text ++ join nl (shape_texts d), None)
      end
  | _ =>
      (submission_text ++ concat (map (fun t => t ++ nl) (shape_texts d)),
       fault d)
  end.

(** The note of the video branch; the dash is U+2014 in [eval.py] and
    [eval1.py] and U+2013 in the two multi-team scripts. *)
Definition video_note (v : variant) : str :=
  match v with
  | Eval => lit "(Video file detected " ++ [8212%N]
            ++ lit " textual content not extracted)"
  | Eval1 => lit "(Video file detected " ++ [8212%N]
             ++ lit " textual content not extracted.)"
  | _ => lit "(Video detected " ++ [8211%N]
         ++ lit " textual content skipped.)"
  end.

(** The final [else] of the chain, present in [eval.py] and [eval1.py]
    only. *)
Definition skipped_block (f : str) : str :=
  marker f (lit " - SKIPPED") ++ lit "Unsupported file type.".

Definition unsupported_text (v : variant) (f : str) : str :=
  match v with
  | Eval | Eval1 => skipped_block f
  | _ => []
  end.

(** The body of the [try] for one file: the new value of [submission_text]
    and the exception that left the body, if any.  An augmented assignment
    whose right-hand side raises leaves [submission_text] as it was; the PDF
    and slide branches append their marker before they call the reader. *)
Definition extract_file (v : variant) (f : file) (submission_text : str)
  : str * option exn :=
  let name := fname f in
  match classify (extension name) with
  | Code =>
      match read_utf8 f with
      | Ok t => (submission_text ++ marker name (lit " - CODE") ++ t, None)
      | Raise e => (submission_text, Some e)
      end
  | Pdf =>
      let submission_text := submission_text ++ marker name (lit " - DOCUMENT") in
      match pdf_text f with
      | Ok text => (submission_text ++ text, None)
      | Raise e => (submission_text, Some e)
      end
  | Docx =>
      match docx_text f with
      | Ok t => (submission_text ++ marker name (lit " - DOCUMENT") ++ t, None)
      | Raise e => (submission_text, Some e)
      end
  | Slides =>
      let submission_text := submission_text ++ marker name (lit " - SLIDES") in
      match pptx f with
      | Ok d => append_slides v d submission_text
      | Raise e => (submission_text, Some e)
      end
  | Note =>
      match read_utf8 f with
      | Ok t => (submission_text ++ marker name [] ++ t, None)
      | Raise e => (submission_text, Some e)
      end
  | Video =>
      (submission_text ++ marker name (lit " - VIDEO") ++ video_note v, None)
  | Unsupported =>
      (submission_text ++ unsupported_text v name, None)
  end.

(** ["\n\n[FILE: {f} - ERROR]\nCould not read this file ({e})"] *)
Definition error_block (f : str) (e : exn) : str :=
  marker f (lit " - ERROR") ++ lit "Could not read this file ("
  ++ exn_str e ++ lit ")".

(** One iteration of the loop over the files: the body and its
    [except Exception as e] handler. *)
Definition extract_step (v : variant) (submission_text : str) (f : file) : str :=
  match extract_file v f submission_text with
  | (s, None) => s
  | (s, Some e) => s ++ error_block (fname f) e
  end.

Definition extract_files (v : variant) (files : list file) (acc : str) : str :=
  fold_left (extract_step v) files acc.

(** [extract_submission_text]: [unzip] is the outcome of opening and
    unpacking the upload followed by the walk over the workspace; it is not
    inside any [try] of the function. *)
Definition extract_submission_text (v : variant)
    (unzip : result (list file)) : result str :=
  files <- unzip ;;
  Ok (strip (extract_files v files [])).

(** A name made of ASCII characters, on which [lower] is Python's
    [str.lower]. *)
Definition ascii_name (s : str) : Prop := Forall (fun c => (c < 128)%N) s.

(** The nine extensions the chain tests for. *)
Definition supported : list str :=
  map lit ["py"; "pdf"; "docx"; "pptx"; "txt"; "md"; "mp4"; "mov"; "mkv"]%string.

(** The specification's reading of the extension, to be compared with
    [extension]: the part of [s] after its last full stop, and all of [s]
    when it has none. *)
Fixpoint after_last_dot (s : str) : str :=
  match s with
  | [] => []
  | c :: t =>
      if existsb (N.eqb 46) t then after_last_dot t
      else if N.eqb c 46 then t else s
  end.

(** The text the specification expects for one unsupported file:
    ["[FILE: {f} - SKIPPED]\nUnsupported file type."] *)
Definition skipped_line (f : str) : str :=
  lit "[FILE: " ++ f ++ lit " - SKIPPED]" ++ nl ++ lit "Unsupported file type.".

End Extractor.

(** ** Rubric-prompt composition (the f-string of [evaluate_submission]) *)

Module Prompt.

(** The five criterion lines shared by [eval1.py], [eval2.py] and
    [evaltable.py]. *)
Definition criteria_lines : str :=
  litq "    {'name': 'Relevance to the Problem and Tech Landscape', 'score': <0-30>, 'reason': '<why>'}," ++ nl
  ++ litq "    {'name': 'Innovation and Creativity', 'score': <0-15>, 'reason': '<why>'}," ++ nl
  ++ litq "    {'name': 'Feasibility and Scalability', 'score': <0-15>, 'reason': '<why>'}," ++ nl
  ++ litq "    {'name': 'Usage of GenAI and AI/ML Techniques', 'score': <0-20>, 'reason': '<why>'}," ++ nl
  ++ litq "    {'name': 'Teamwork and Presentation Quality', 'score': <0-20>, 'reason': '<why>'}" ++ nl.

(** The template up to the rubric. *)
Definition head (v : variant) : str :=
  match v with
  | Eval =>
      nl
      ++ lit "You are an impartial AI evaluator for hackathon submissions." ++ nl
      ++ lit "Evaluate the following submission strictly according to the given scoring rubric." ++ nl
      ++ nl
      ++ lit "Rubric:" ++ nl
  | Eval1 =>
      nl
      ++ lit "You are an impartial AI evaluator for hackathon submissions." ++ nl
      ++ lit "also respond/dont " ++ nl
      ++ lit "Evaluate the following submission according to this rubric:" ++ nl
  | Eval2 =>
      nl
      ++ lit "You are an impartial AI evaluator for hackathon submissions." ++ nl
      ++ nl
      ++ lit "Evaluate the following submission using the given rubric:" ++ nl
  | EvalTable =>
      nl
      ++ lit "You are an impartial AI evaluator for hackathon submissions." ++ nl
      ++ nl
      ++ lit "Follow these **Quadril Quidelins** before scoring:" ++ nl
      ++ lit "1" ++ [65039%N; 8419%N] ++ lit " Relevance Filter " ++ [8212%N] ++ lit " Evaluate only if content clearly represents a hackathon project (code, model, architecture, documentation, or demo)." ++ nl
      ++ lit "2" ++ [65039%N; 8419%N] ++ lit " Authenticity Check " ++ [8212%N] ++ lit " Ignore resumes, certificates, or unrelated academic text." ++ nl
      ++ lit "3" ++ [65039%N; 8419%N] ++ lit " Technical Substance " ++ [8212%N] ++ lit " Evaluate only if it shows code, logic, or architecture for a real problem statement." ++ nl
      ++ lit "4" ++ [65039%N; 8419%N] ++ lit " Evaluation Readiness " ++ [8212%N] ++ lit " If not valid, output:" ++ nl
      ++ lit "{" ++ nl
      ++ litq "  'status': 'Invalid Submission'," ++ nl
      ++ litq "  'reason': 'Submission does not appear to contain a hackathon solution or technical content.'" ++ nl
      ++ lit "}" ++ nl
      ++ nl
      ++ lit "If valid, evaluate it using this rubric:" ++ nl
  end.

(** Between the rubric and the submission text; the same in every script. *)
Definition middle : str :=
  nl ++ nl ++ lit "Submission:" ++ nl.

(** The template after the submission text.  In [eval.py] the words after
    the slice, written as a comment, are inside the f-string and so part of
    the prompt. *)
Definition tail (v : variant) : str :=
  match v with
  | Eval =>
      lit "  # Truncate to avoid token overflow" ++ nl
      ++ nl
      ++ lit "Return a JSON in this exact format:" ++ nl
      ++ lit "{" ++ nl
      ++ litq " 'criteria': [" ++ nl
      ++ litq "  {'name': 'Design & UI', 'score': <0-10>, 'reason': '<why>'}," ++ nl
      ++ litq "  {'name': 'Functionality', 'score': <0-10>, 'reason': '<why>'}," ++ nl
      ++ litq "  {'name': 'Innovation', 'score': <0-10>, 'reason': '<why>'}," ++ nl
      ++ litq "  {'name': 'Feasibility', 'score': <0-10>, 'reason': '<why>'}," ++ nl
      ++ litq "  {'name': 'Presentation', 'score': <0-10>, 'reason': '<why>'}" ++ nl
      ++ lit " ]," ++ nl
      ++ litq " 'total_score': <avg_of_scores>," ++ nl
      ++ litq " 'summary': '<1-2 line justification>'" ++ nl
      ++ lit "}" ++ nl
      ++ lit "    "
  | Eval1 =>
      nl
      ++ nl
      ++ lit "Return a JSON in this exact format:" ++ nl
      ++ lit "{" ++ nl
      ++ litq "  'criteria': [" ++ nl
      ++ criteria_lines
      ++ lit "  ]," ++ nl
      ++ litq "  'total_score': <sum_of_scores_out_of_100>," ++ nl
      ++ litq "  'summary': '<1-2 line justification>'" ++ nl
      ++ lit "}" ++ nl
      ++ lit "    "
  | Eval2 =>
      nl
      ++ nl
      ++ lit "Return a JSON in this exact format:" ++ nl
      ++ lit "{" ++ nl
      ++ litq "  'criteria': [" ++ nl
      ++ criteria_lines
      ++ lit "  ]," ++ nl
      ++ litq "  'total_score': <sum_out_of_100>," ++ nl
      ++ litq "  'summary': '<short justification>'" ++ nl
      ++ lit "}" ++ nl
      ++ lit "    "
  | EvalTable =>
      nl
      ++ nl
      ++ lit "Return output strictly in JSON format:" ++ nl
      ++ lit "{" ++ nl
      ++ litq "  'status': 'Valid Submission'," ++ nl
      ++ litq "  'criteria': [" ++ nl
      ++ criteria_lines
      ++ lit "  ]," ++ nl
      ++ litq "  'total_score': <sum_out_of_100>," ++ nl
      ++ litq "  'summary': '<1-2 line justification>'" ++ nl
      ++ lit "}" ++ nl
      ++ lit "    "
  end.

(** The character budget of [submission_text[:20000]]. *)
Definition budget : N := 20000.

(** The prompt: the template with [{rubric_text}] and
    [{submission_text[:20000]}] filled in. *)
Definition compose (v : variant) (rubric_text submission_text : str) : str :=
  head v ++ rubric_text ++ middle
  ++ slice_to budget submission_text ++ tail v.

End Prompt.

(** ** Tolerant reply parsing *)

Module Parser.

(** The reply object of the remote call: its [content] attribute, when it
    has a string one, and its [str(...)] form. *)
Record response := Response {
  content : option str;
  as_str : str
}.

(** [raw = getattr(result, "content", None) or str(result)]: an absent or
    empty content gives way to the string form. *)
Definition raw_of (r : response) : str :=
  match content r with
  | Some (c :: t) => c :: t
  | _ => as_str r
  end.

Definition lbrace : char := 123%N.
Definition rbrace : char := 125%N.

(** What the greedy [[\s\S]*\}] matches at the start of [s]: the longest
    prefix of [s] that ends with a closing brace. *)
Fixpoint greedy_close (s : str) : option str :=
  match s with
  | [] => None
  | c :: t =>
      match greedy_close t with
      | Some m => Some (c :: m)
      | None => if N.eqb c rbrace then Some [c] else None
      end
  end.

(** [re.search(r"\{[\s\S]*\}", raw)], as the text of group 0: the
    leftmost position at which the pattern matches, and the longest match
    there. *)
Fixpoint re_search (raw : str) : option str :=
  match raw with
  | [] => None
  | c :: t =>
      if N.eqb c lbrace then
        match greedy_close t with
        | Some m => Some (c :: m)
        | None => re_search t
        end
      else re_search t
  end.

(** [{"error": "Invalid JSON", "raw": raw}] *)
Definition not_parsed (raw : str) : dict :=
  [(lit "error", PStr (lit "Invalid JSON")); (lit "raw", PStr raw)].

Section Decoder.

(** [json.loads] on a text that begins with an opening brace: such a text
    decodes to an object, a Python [dict], or the decoder raises. *)
Variable json_loads : str -> result dict.

(** The end of [evaluate_submission] in [eval2.py] and [evaltable.py]: a
    bare [except] swallows whatever the decoder raises. *)
Definition parse_reply (raw : str) : dict :=
  match re_search raw with
  | Some m =>
      match json_loads m with
      | Ok d => d
      | Raise _ => not_parsed raw
      end
  | None => not_parsed raw
  end.

(** The parsing block of [eval.py] and [eval1.py]: [parsed] is [None] when
    nothing matched or the decoder raised [JSONDecodeError]; another
    exception is not handled. *)
Definition parse_block (raw : str) : result (option dict) :=
  match re_search raw with
  | Some m =>
      match json_loads m with
      | Ok d => Ok (Some d)
      | Raise e =>
          match exn_cls e with
          | JSONDecodeError => Ok None
          | _ => Raise e
          end
      end
  | None => Ok None
  end.

(** [evaluate_submission] of the two multi-team scripts: [llm] is the remote
    call, whose exceptions are not handled here. *)
Definition evaluate_submission (v : variant) (llm : str -> result response)
    (rubric_text submission_text : str) : result dict :=
  result <- llm (Prompt.compose v rubric_text submission_text) ;;
  Ok (parse_reply (raw_of result)).

End Decoder.

End Parser.

(** ** Score normalisation ([eval1.py]) *)

Module Normalizer.

Definition int_of_bool (b : bool) : Z := if b then 1 else 0.

(** The rescaling of [total_score]:
    [if isinstance(total_score, (int, float)) and total_score <= 10:
       total_score = total_score * 10].
    A [bool] is an [int] in Python. *)
Definition rescale_total (total_score : pyval) : pyval :=
  match total_score with
  | PBool b =>
      if (int_of_bool b <=? 10)%Z then PInt (int_of_bool b * 10) else total_score
  | PInt z => if (z <=? 10)%Z then PInt (z * 10) else total_score
  | PFloat f => if (f <=? 10)%float then PFloat (f * 10)%float else total_score
  | _ => total_score
  end.

(** The value shown as the final score: [parsed.get("total_score", "N/A")]
    after the rescaling. *)
Definition final_score (parsed : dict) : pyval :=
  rescale_total (dict_get parsed (lit "total_score") (PStr (lit "N/A"))).

Section Rounding.

(** [round(x, 1)] on a float; on an [int] Python's [round(n, 1)] is [n]. *)
Variable round1 : float -> float.

(** The rescaling of one criterion score:
    [if isinstance(score, (int, float)) and score <= 10:
       score = round(score * 3, 1)]. *)
Definition rescale_score (score : pyval) : pyval :=
  match score with
  | PBool b =>
      if (int_of_bool b <=? 10)%Z then PInt (int_of_bool b * 3) else score
  | PInt z => if (z <=? 10)%Z then PInt (z * 3) else score
  | PFloat f => if (f <=? 10)%float then PFloat (round1 (f * 3)%float) else score
  | _ => score
  end.

End Rounding.

End Normalizer.

(** ** The multi-team loop and the leaderboard ([eval2.py], [evaltable.py]) *)

Module Batch.

Import Extractor Parser.

(** One uploaded archive: its name, what unpacking and walking it yields,
    and what the remote model answers to the prompt built for it. *)
Record upload := Upload {
  upload_name : str;
  unzip : result (list file);
  llm : str -> result response
}.

(** One element of [all_results]; the fields are the keys ["Team Name"],
    ["Score"], ["Summary"] and ["Details"] of the source's dict. *)
Record entry := Entry {
  Team_Name : str;
  Score : pyval;
  Summary : pyval;
  Details : dict
}.

(** The entry appended by the [except Exception as e] handler of the loop. *)
Definition error_entry (u : upload) (e : exn) : entry :=
  {| Team_Name := upload_name u;
     Score := PInt 0;
     Summary := PStr (lit "Error: " ++ exn_str e);
     Details := [] |}.

(** [result.get("status") == "Invalid Submission"] *)
Definition is_invalid (result : dict) : bool :=
  match dict_lookup (lit "status") result with
  | Some (PStr s) => str_eqb s (lit "Invalid Submission")
  | _ => false
  end.

Section Loop.

Variable json_loads : str -> result dict.

(** The body of the [try] for one upload; [v] is [EvalTable] or [Eval2],
    the single-submission scripts have no such loop.  [Ok None] stands for
    the [continue] of [evaltable.py], which appends nothing. *)
Definition process (v : variant) (rubric_text : str) (u : upload)
  : result (option entry) :=
  submission_text <- extract_submission_text v (unzip u) ;;
  result <- evaluate_submission json_loads v (llm u) rubric_text submission_text ;;
  match v with
  | EvalTable =>
      if is_invalid result then Ok None
      else
        Ok (Some {| Team_Name := replace (lit ".zip") [] (upload_name u);
                    Score := dict_get result (lit "total_score") (PInt 0);
                    Summary := dict_get result (lit "summary")
                                 (PStr (lit "No summary"));
                    Details := result |})
  | _ =>
      let total :=
        match dict_lookup (lit "total_score") result with
        | Some total_score => total_score
        | None => PInt 0
        end in
      Ok (Some {| Team_Name := replace (lit ".zip") [] (upload_name u);
                  Score := total;
                  Summary := dict_get result (lit "summary")
                               (PStr (lit "No summary"));
                  Details := result |})
  end.

(** One iteration of [for i, upload_file in enumerate(uploads, start=1)]. *)
Definition step (v : variant) (rubric_text : str)
    (all_results : list entry) (u : upload) : list entry :=
  match process v rubric_text u with
  | Ok (Some e) => all_results ++ [e]
  | Ok None => all_results
  | Raise e => all_results ++ [error_entry u e]
  end.

(** The loop, started with [all_results = []]. *)
Definition evaluate_all (v : variant) (rubric_text : str)
    (uploads : list upload) : list entry :=
  fold_left (step v rubric_text) uploads [].

(** What makes the body of the [try] raise: the extraction, or else the
    remote call made with the prompt of the extracted text. *)
Definition raises_with (v : variant) (rubric_text : str) (u : upload) (e : exn)
  : Prop :=
  unzip u = Raise e
  \/ exists files,
       unzip u = Ok files
       /\ llm u (Prompt.compose v rubric_text (strip (extract_files v files [])))
          = Raise e.

End Loop.

Section Ordering.

(** Python's [<] on two decoded values, the only comparison [sorted] makes;
    it raises [TypeError] on values it cannot order. *)
Variable py_lt : pyval -> pyval -> result bool.

(** Insertion of [x] in front of the first element that is not below it. *)
Fixpoint insert (x : entry) (l : list entry) : result (list entry) :=
  match l with
  | [] => Ok [x]
  | y :: ys =>
      below <- py_lt (Score y) (Score x) ;;
      if below then (r <- insert x ys ;; Ok (y :: r)) else Ok (x :: l)
  end.

(** A stable ascending sort by [Score].  Python's own algorithm makes its
    comparisons in another order.  The two return the same list where [<]
    orders the scores (every stable sort does), and both raise where [<]
    raises on every two scores; this sort stands for Python's there and
    nowhere else (not, say, for totals among which one is a NaN, which [<]
    does not order). *)
Fixpoint sort_ascending (l : list entry) : result (list entry) :=
  match l with
  | [] => Ok []
  | x :: xs => s <- sort_ascending xs ;; insert x s
  end.

(** [sorted(all_results, key=lambda x: x["Score"], reverse=True)]: Python
    reverses the list, sorts it stably in ascending order and reverses the
    outcome. *)
Definition leaderboard (all_results : list entry) : result (list entry) :=
  s <- sort_ascending (rev all_results) ;; Ok (rev s).

(** [enumerate(leaderboard, start=1)] *)
Definition enumerate1 (board : list entry) : list (nat * entry) :=
  combine (seq 1 (length board)) board.

Definition ranked (all_results : list entry) : result (list (nat * entry)) :=
  board <- leaderboard all_results ;; Ok (enumerate1 board).

End Ordering.

End Batch.

(** ** The order of the leaderboard, as the specification words it *)

Module Board.

Import Batch.

Section Keys.

(** A position on the integer line for every score: the value of an integer
    score, and for other scores whatever renders the order that [<] puts on
    them. *)
Variable key : pyval -> Z.

Definition key_of (e : entry) : Z := key (Score e).

(** The sort with the comparisons carried out on the keys. *)
Fixpoint insert_by_key (x : entry) (l : list entry) : list entry :=
  match l with
  | [] => [x]
  | y :: ys =>
      if (key_of y <? key_of x)%Z then y :: insert_by_key x ys else x :: l
  end.

Fixpoint sort_by_key (l : list entry) : list entry :=
  match l with
  | [] => []
  | x :: xs => insert_by_key x (sort_by_key xs)
  end.

Definition ascending : list entry -> Prop :=
  StronglySorted (fun a b => (key_of a <= key_of b)%Z).

(** Every entry scores at least as much as each entry after it. *)
Definition descending : list entry -> Prop :=
  StronglySorted (fun a b => (key_of a >= key_of b)%Z).

(** The entries whose score is [k]. *)
Definition scoring (k : Z) (l : list entry) : list entry :=
  filter (fun e => (key_of e =? k)%Z) l.

(** Python's [<], the only comparison [sorted] makes. *)
Variable py_lt : pyval -> pyval -> result bool.

(** [<] orders the scores of the results of [l] as their keys are
    ordered. *)
Definition ordered_by_key (l : list entry) : Prop :=
  forall x y, In x l -> In y l ->
    py_lt (Score x) (Score y) = Ok (key_of x <? key_of y)%Z.

End Keys.

End Board.

(** ** Sample inputs *)

Module Samples.

Import Extractor Parser Batch.

(** Sample files: a readable text file, and one whose bytes are not UTF-8.
    The readers of the other formats refuse both. *)
Definition wrong_format : exn := Exn OtherException (lit "unreadable").

Definition text_file (name content : string) : file :=
  File (lit name) (Ok (lit content)) (Raise wrong_format) (Raise wrong_format)
       (Raise wrong_format) (Raise wrong_format).

Definition bad_utf8 : exn :=
  Exn OtherException
    (lit "'utf-8' codec can't decode byte 0xff in position 0: invalid start byte").

Definition undecodable_file (name : string) : file :=
  File (lit name) (Raise bad_utf8) (Raise wrong_format) (Raise wrong_format)
       (Raise wrong_format) (Raise wrong_format).

(** A decoder that knows one JSON text, for the examples. *)
Definition sample_object : str :=
  litq "{'total_score': 85, 'summary': 'ok'}".

Definition sample_decoder (s : str) : result dict :=
  if str_eqb s sample_object
  then Ok [(lit "total_score", PInt 85); (lit "summary", PStr (lit "ok"))]
  else Raise (Exn JSONDecodeError
                (lit "Expecting value: line 1 column 1 (char 0)")).

(** The key of an integer score is its value. *)
Definition int_key (score : pyval) : Z :=
  match score with
  | PInt z => z
  | _ => 0%Z
  end.

(** An ordering that agrees with Python's on integers, for the examples. *)
Definition lt_on_ints (a b : pyval) : result bool :=
  match a, b with
  | PInt x, PInt y => Ok (x <? y)%Z
  | _, _ => Raise (Exn OtherException (lit "not supported"))
  end.

Definition scored (name : string) (total : Z) : entry :=
  {| Team_Name := lit name; Score := PInt total;
     Summary := PStr (lit "No summary"); Details := [] |}.

Definition three_results : list entry :=
  [scored "alpha" 55; scored "beta" 90; scored "gamma" 90].

(** Sample uploads: one that is not a zip archive, one whose remote call
    fails, one that is answered with a score, and one that the model
    declares invalid. *)
Definition bad_zip : exn := Exn OtherException (lit "File is not a zip file").

Definition timed_out : exn := Exn OtherException (lit "Connection error.").

Definition status_invalid : str := litq "{'status': 'Invalid Submission'}".

Definition table_decoder (s : str) : result dict :=
  if str_eqb s status_invalid
  then Ok [(lit "status", PStr (lit "Invalid Submission"))]
  else sample_decoder s.

Definition answers (text : str) (prompt : str) : result response :=
  Ok (Response (Some text) (lit "content=...")).

Definition broken_upload : upload :=
  Upload (lit "team1.zip") (Raise bad_zip) (answers sample_object).

Definition unreachable_upload : upload :=
  Upload (lit "team2.zip") (Ok [text_file "main.py" "x = 1"])
         (fun _ => Raise timed_out).

Definition good_upload : upload :=
  Upload (lit "team3.zip") (Ok [text_file "main.py" "x = 1"])
         (answers sample_object).

Definition invalid_upload : upload :=
  Upload (lit "team4.zip") (Ok [text_file "cv.txt" "resume"])
         (answers status_invalid).

End Samples.

(** ** What the scripts show of a result *)

Module Display.

Import Extractor Parser Batch.

(** Python's truth value of a decoded value, as [if x:] takes it. *)
Definition truthy (x : pyval) : bool :=
  match x with
  | PNone => false
  | PBool b => b
  | PInt z => negb (z =? 0)%Z
  | PFloat f => negb (f =? 0)%float
  | PStr s => match s with [] => false | _ :: _ => true end
  | PList l => match l with [] => false | _ :: _ => true end
  | PDict d => match d with [] => false | _ :: _ => true end
  end.

(** The branch [eval.py] and [eval1.py] take after the parsing block: the
    warning that the output was not pure JSON, under which the raw reply is
    written and after which nothing more is shown, or the rendering of the
    report for the decoded result.  The rendering itself reads keys of the
    result and raises when one is missing or of the wrong kind
    ([parsed["criteria"]] in [eval.py], [round] in [eval1.py], for which see
    [final_metric]); it is not part of this type. *)
Inductive branch :=
| WarnAndShowRaw (raw : str)
| RenderReport (parsed : dict).

Section Decoder.

Variable json_loads : str -> result dict.

(** The tests [if not parsed:] and [if parsed:] that choose the branch: a
    [dict] is true when it is not empty. *)
Definition branch_taken (raw : str) : result branch :=
  parsed <- parse_block json_loads raw ;;
  Ok (match parsed with
      | Some (kv :: d) => RenderReport (kv :: d)
      | _ => WarnAndShowRaw raw
      end).

End Decoder.

Definition type_name (x : pyval) : str :=
  match x with
  | PNone => lit "NoneType"
  | PBool _ => lit "bool"
  | PInt _ => lit "int"
  | PFloat _ => lit "float"
  | PStr _ => lit "str"
  | PList _ => lit "list"
  | PDict _ => lit "dict"
  end.

Section Rounding.

Variable round1 : float -> float.

(** [round(x, 1)]: an [int] (and a [bool], which is one) comes back as the
    same [int], a float is rounded, anything else has no [__round__]. *)
Definition py_round (x : pyval) : result pyval :=
  match x with
  | PBool b => Ok (PInt (Normalizer.int_of_bool b))
  | PInt z => Ok (PInt z)
  | PFloat f => Ok (PFloat (round1 f))
  | _ => Raise (Exn OtherException
                  (lit "type " ++ type_name x
                   ++ lit " doesn't define __round__ method"))
  end.

(** The number [eval1.py] puts before [/100] in its final-score metric:
    [round(total_score, 1)] after the rescaling; the call is in no [try]. *)
Definition final_metric (parsed : dict) : result pyval :=
  py_round (Normalizer.final_score parsed).

End Rounding.

(** [if entry["Details"].get("criteria"):], the condition under which
    [evaltable.py] shows the table of criteria of an entry. *)
Definition shows_criteria (e : entry) : bool :=
  match dict_lookup (lit "criteria") (Details e) with
  | Some criteria => truthy criteria
  | None => false
  end.

(** One row of the summary table of [evaltable.py]. *)
Record row := Row {
  Rank : nat;
  Row_Team_Name : str;
  Row_Score : pyval;
  Row_Summary : pyval
}.

(** The rows [{"Rank": idx + 1, ...} for idx, entry in
    enumerate(leaderboard)]. *)
Definition summary_rows (board : list entry) : list row :=
  map (fun p : nat * entry =>
         let (idx, e) := p in
         {| Rank := idx + 1; Row_Team_Name := Team_Name e;
            Row_Score := Score e; Row_Summary := Summary e |})
      (combine (seq 0 (length board)) board).

(** [if leaderboard:] no table is built for an empty leaderboard. *)
Definition summary_table (board : list entry) : option (list row) :=
  match board with
  | [] => None
  | _ :: _ => Some (summary_rows board)
  end.

(** A text with no white space at either end. *)
Definition trimmed (t : str) : Prop :=
  match t with
  | [] => True
  | c :: _ => is_space c = false /\ is_space (last t c) = false
  end.

(** The outcome of pdfminer that sends the PDF branch to PyMuPDF: an
    exception, or a text of fewer than 20 characters once stripped. *)
Definition pdfminer_unusable (f : file) : Prop :=
  match pdfminer_text f with
  | Ok text => (len (strip text) < 20)%Z
  | Raise _ => True
  end.

End Display.

(** ** Further sample inputs *)

Module MoreSamples.

Import Extractor Parser Batch Samples.

(** A scanned PDF: pdfminer finds white space only, PyMuPDF two pages. *)
Definition scanned_pdf : file :=
  File (lit "scan.pdf") (Raise wrong_format) (Ok (lit "   "))
       (Ok [lit "page one"; lit "page two"])
       (Raise wrong_format) (Raise wrong_format).

(** An entry whose result carries [null] as its total. *)
Definition unscored (name : string) : entry :=
  {| Team_Name := lit name; Score := PNone;
     Summary := PStr (lit "No summary"); Details := [] |}.

(** A reply whose total is [null], and a decoder that knows it. *)
Definition null_total : str := litq "{'total_score': null}".

Definition null_decoder (s : str) : result dict :=
  if str_eqb s null_total
  then Ok [(lit "total_score", PNone)]
  else Raise (Exn JSONDecodeError
                (lit "Expecting value: line 1 column 1 (char 0)")).

Definition null_upload : upload :=
  Upload (lit "team6.zip") (Ok [text_file "main.py" "x = 1"])
         (answers null_total).

(** Python's [<] on integers and [None]: two integers are compared, and
    [None] is below nothing and above nothing. *)
Definition lt_int_none (a b : pyval) : result bool :=
  match a, b with
  | PInt x, PInt y => Ok (x <? y)%Z
  | _, _ =>
      Raise (Exn OtherException
               (lit "'<' not supported between instances of '"
                ++ Display.type_name a ++ lit "' and '"
                ++ Display.type_name b ++ lit "'"))
  end.

Definition silent_upload : upload :=
  Upload (lit "team5.zip") (Ok [text_file "main.py" "x = 1"])
         (answers (lit "I cannot evaluate this submission.")).

End MoreSamples.

(** * Properties *)

(** ** Strings *)

Module PyFacts.

Lemma str_eqb_eq (a b : str) : str_eqb a b = true <-> a = b.
Proof.
  unfold str_eqb. destruct (list_eq_dec N.eq_dec a b); split; congruence.
Qed.

Lemma str_eqb_refl (a : str) : str_eqb a a = true.
Proof. now apply str_eqb_eq. Qed.

Lemma str_eqb_neq (a b : str) : str_eqb a b = false <-> a <> b.
Proof.
  unfold str_eqb. destruct (list_eq_dec N.eq_dec a b); split; congruence.
Qed.

Lemma existsb_eqb_In (c : char) (s : str) :
  existsb (N.eqb c) s = true <-> In c s.
Proof.
  rewrite existsb_exists. split.
  - intros [x [Hin Heq]]. apply N.eqb_eq in Heq. now subst.
  - intros Hin. exists c. split; [assumption | apply N.eqb_refl].
Qed.

Lemma existsb_eqb_not_In (c : char) (s : str) :
  existsb (N.eqb c) s = false <-> ~ In c s.
Proof.
  rewrite <- existsb_eqb_In. destruct (existsb (N.eqb c) s); split; congruence.
Qed.

Lemma split_not_nil (sep : char) (s : str) : split sep s <> [].
Proof.
  destruct s as [|c t]; simpl; [discriminate|].
  destruct (N.eqb c sep); [discriminate|].
  destruct (split sep t); discriminate.
Qed.

Lemma split_no_sep (sep : char) (s : str) :
  ~ In sep s -> split sep s = [s].
Proof.
  induction s as [|c t IH]; simpl; intros Hn; [reflexivity|].
  destruct (N.eqb_spec c sep) as [->|Hne].
  - exfalso. apply Hn. now left.
  - rewrite IH; [reflexivity|]. intros H. apply Hn. now right.
Qed.

Lemma split_with_sep (sep : char) (s : str) :
  In sep s -> exists h x r, split sep s = h :: x :: r.
Proof.
  induction s as [|c t IH]; simpl; intros Hin; [contradiction|].
  destruct (N.eqb_spec c sep) as [->|Hne].
  - destruct (split sep t) as [|x r] eqn:E.
    + now apply split_not_nil in E.
    + now exists [], x, r.
  - destruct Hin as [Heq|Hin]; [congruence|].
    destruct (IH Hin) as (h & x & r & ->). now exists (c :: h), x, r.
Qed.

Lemma lower_char_dot (c : char) : lower_char c = 46%N <-> c = 46%N.
Proof.
  unfold lower_char.
  destruct ((65 <=? c)%N && (c <=? 90)%N) eqn:E; [|tauto].
  apply andb_true_iff in E. destruct E as [H1 H2].
  apply N.leb_le in H1, H2. lia.
Qed.

Lemma lower_In_dot (s : str) : In 46%N (lower s) <-> In 46%N s.
Proof.
  unfold lower. rewrite in_map_iff. split.
  - intros [c [Hc Hin]]. apply (proj1 (lower_char_dot c)) in Hc. now subst.
  - intros Hin. exists 46%N. split; [reflexivity | assumption].
Qed.

Lemma lstrip_not_space (c : char) (s : str) :
  is_space c = false -> lstrip (c :: s) = c :: s.
Proof. intros H. simpl. now rewrite H. Qed.

Lemma rstrip_snoc (s : str) (c : char) :
  is_space c = false -> rstrip (s ++ [c]) = s ++ [c].
Proof.
  intros H. unfold rstrip. rewrite rev_app_distr. simpl.
  rewrite H. simpl. now rewrite rev_involutive.
Qed.

End PyFacts.

(** ** The per-file extractor *)

Module ExtractorFacts.

Import Extractor PyFacts Samples.

Lemma after_last_dot_no_dot (s : str) :
  ~ In 46%N s -> after_last_dot s = s.
Proof.
  destruct s as [|c t]; [reflexivity|]. intros Hn. cbn [after_last_dot].
  destruct (existsb (N.eqb 46) t) eqn:D.
  - apply existsb_eqb_In in D. exfalso. apply Hn. now right.
  - destruct (N.eqb_spec c 46) as [->|_]; [|reflexivity].
    exfalso. apply Hn. now left.
Qed.

Lemma last_split_after_last_dot (s : str) :
  last (split 46%N s) [] = after_last_dot s.
Proof.
  induction s as [|c t IH]; [reflexivity|].
  cbn [split after_last_dot].
  destruct (N.eqb_spec c 46) as [->|Hne].
  - destruct (split 46%N t) as [|x r] eqn:E; [now apply split_not_nil in E|].
    change (last ([] :: x :: r) []) with (last (x :: r) ([] : str)).
    rewrite IH. destruct (existsb (N.eqb 46) t) eqn:D; [reflexivity|].
    apply after_last_dot_no_dot. now apply existsb_eqb_not_In.
  - destruct (existsb (N.eqb 46) t) eqn:D.
    + apply existsb_eqb_In in D.
      destruct (split_with_sep 46%N t D) as (h & x & r & E).
      rewrite E in *. rewrite <- IH. reflexivity.
    + apply existsb_eqb_not_In in D. now rewrite split_no_sep.
Qed.

Lemma classify_unsupported (ext : str) :
  classify ext = Unsupported <-> ~ In ext supported.
Proof.
  split.
  - intros H Hin. cbn in Hin.
    repeat (destruct Hin as [<-|Hin]; [vm_compute in H; discriminate H|]).
    exact Hin.
  - intros Hn.
    assert (Hk : forall k, In k supported -> str_eqb ext k = false).
    { intros k Hk. apply str_eqb_neq. intros ->. contradiction. }
    unfold classify.
    rewrite !Hk by (cbv; auto 12). reflexivity.
Qed.

Lemma extract_files_app (v : variant) (l1 l2 : list file) (acc : str) :
  extract_files v (l1 ++ l2) acc = extract_files v l2 (extract_files v l1 acc).
Proof. unfold extract_files. apply fold_left_app. Qed.

Lemma extract_files_unsupported (v : variant) (files : list file) (acc : str) :
  Forall (fun f => classify (extension (fname f)) = Unsupported) files ->
  extract_files v files acc
  = acc ++ concat (map (fun f => unsupported_text v (fname f)) files).
Proof.
  intros H. revert acc. unfold extract_files.
  induction H as [|f fs Hf _ IH]; intros acc; cbn [fold_left map concat].
  - now rewrite app_nil_r.
  - rewrite IH. unfold extract_step, extract_file.
    rewrite Hf. now rewrite app_assoc.
Qed.

Lemma skipped_block_line (f : str) :
  skipped_block f = nl ++ nl ++ skipped_line f.
Proof.
  unfold skipped_block, skipped_line, marker.
  repeat rewrite <- app_assoc. reflexivity.
Qed.

Lemma concat_blocks_join (names : list str) :
  names <> [] ->
  concat (map skipped_block names)
  = nl ++ nl ++ join (nl ++ nl) (map skipped_line names).
Proof.
  induction names as [|f fs IH]; [congruence|]. intros _.
  destruct fs as [|g gs].
  - cbn [map concat join]. now rewrite app_nil_r, skipped_block_line.
  - cbn [map concat join] in *. rewrite IH by discriminate.
    rewrite skipped_block_line. now repeat rewrite <- app_assoc.
Qed.

Lemma skipped_line_shape (f : str) :
  exists body, skipped_line f = 91%N :: body ++ [46%N].
Proof.
  exists (lit "FILE: " ++ f ++ lit " - SKIPPED]" ++ nl
          ++ lit "Unsupported file type").
  unfold skipped_line. repeat rewrite <- app_assoc. reflexivity.
Qed.

Lemma join_lines_shape (names : list str) :
  names <> [] ->
  exists body,
    join (nl ++ nl) (map skipped_line names) = 91%N :: body ++ [46%N].
Proof.
  induction names as [|f fs IH]; [congruence|]. intros _.
  destruct (skipped_line_shape f) as [b1 E1].
  destruct fs as [|g gs].
  - exists b1. exact E1.
  - destruct IH as [b2 E2]; [discriminate|].
    exists (b1 ++ [46%N] ++ (nl ++ nl) ++ 91%N :: b2).
    cbn [map join] in *. rewrite E1, E2.
    cbn [app]. repeat rewrite <- app_assoc. reflexivity.
Qed.

Lemma strip_blocks (names : list str) :
  strip (concat (map skipped_block names))
  = join (nl ++ nl) (map skipped_line names).
Proof.
  destruct names as [|f fs] eqn:E; [reflexivity|]. rewrite <- E.
  assert (Hne : names <> []) by (rewrite E; discriminate).
  rewrite concat_blocks_join by assumption.
  destruct (join_lines_shape names Hne) as [body ->].
  unfold strip. cbn [nl app lstrip]. 
  change (is_space 10%N) with true. change (is_space 91%N) with false. cbn iota.
  change (91%N :: body ++ [46%N]) with ((91%N :: body) ++ [46%N]).
  now apply rstrip_snoc.
Qed.

(** C1, as amended: for every archive whose files have ASCII names and
    unsupported extensions, the extractor of the two single-submission
    scripts ([eval.py], [eval1.py]) returns, without raising, exactly one
    [[FILE: name - SKIPPED]] marker per file, in the order of the walk. *)
Theorem skipped_marker_per_file (v : variant) (files : list file) :
  v = Eval \/ v = Eval1 ->
  Forall (fun f => ascii_name (fname f)) files ->
  Forall (fun f => ~ In (extension (fname f)) supported) files ->
  extract_submission_text v (Ok files)
  = Ok (join (nl ++ nl) (map (fun f => skipped_line (fname f)) files)).
Proof.
  intros Hv _ Hall. unfold extract_submission_text. cbn [bind]. f_equal.
  rewrite extract_files_unsupported.
  - cbn [app].
    replace (map (fun f => unsupported_text v (fname f)) files)
      with (map skipped_block (map fname files)).
    + rewrite strip_blocks. now rewrite map_map.
    + rewrite map_map. apply map_ext. intros f.
      now destruct Hv as [-> | ->].
  - eapply Forall_impl; [|exact Hall]. intros f Hf.
    now apply classify_unsupported.
Qed.

Lemma skipped_marker_per_file_witness :
  extract_submission_text Eval
    (Ok [text_file "data.csv" "a,b"; text_file "Makefile" "all:"])
  = Ok (lit "[FILE: data.csv - SKIPPED]" ++ nl ++ lit "Unsupported file type."
        ++ nl ++ nl
        ++ lit "[FILE: Makefile - SKIPPED]" ++ nl ++ lit "Unsupported file type.").
Proof.
  apply (skipped_marker_per_file Eval
           [text_file "data.csv" "a,b"; text_file "Makefile" "all:"]).
  - now left.
  - repeat constructor.
  - repeat constructor; intros H; cbv in H; intuition discriminate.
Defined.

(** C1 fails in the two multi-team scripts, whose chain has no final [else]:
    a file with an unsupported extension leaves no marker at all. *)
Lemma multi_team_scripts_emit_no_skipped_marker :
  ~ In (extension (lit "notes.xyz")) supported
  /\ extract_submission_text Eval2 (Ok [text_file "notes.xyz" "hello"]) = Ok []
  /\ extract_submission_text Eval2 (Ok [text_file "notes.xyz" "hello"])
     <> Ok (join (nl ++ nl)
              (map (fun f => skipped_line (fname f))
                   [text_file "notes.xyz" "hello"])).
Proof.
  split; [|split].
  - intros H; cbv in H; intuition discriminate.
  - reflexivity.
  - vm_compute. discriminate.
Qed.

(** In the two multi-team scripts such an archive yields the empty text. *)
Lemma unsupported_files_leave_no_text (v : variant) (files : list file) :
  v = Eval2 \/ v = EvalTable ->
  Forall (fun f => ascii_name (fname f)) files ->
  Forall (fun f => ~ In (extension (fname f)) supported) files ->
  extract_submission_text v (Ok files) = Ok [].
Proof.
  intros Hv _ Hall. unfold extract_submission_text. cbn [bind]. f_equal.
  rewrite extract_files_unsupported.
  - replace (map (fun f => unsupported_text v (fname f)) files)
      with (map (fun _ : file => ([] : str)) files)
      by (apply map_ext; intros f; now destruct Hv as [-> | ->]).
    cbn [app]. clear. induction files as [|f fs IH]; [reflexivity|exact IH].
  - eapply Forall_impl; [|exact Hall]. intros f Hf.
    now apply classify_unsupported.
Qed.

(** A code or note file that cannot be decoded makes the body raise before
    anything is appended. *)
Lemma undecodable_text_raises
    (v : variant) (f : file) (acc : str) (e : exn) :
  classify (extension (fname f)) = Code \/ classify (extension (fname f)) = Note ->
  read_utf8 f = Raise e ->
  extract_file v f acc = (acc, Some e).
Proof.
  intros [H | H] Hr; unfold extract_file; now rewrite H, Hr.
Qed.

(** C7: when the body of the [try] for a file raises, the handler appends
    exactly one [[FILE: name - ERROR]] block, which carries the file's name
    and the text of the exception, and the loop goes on with the remaining
    files.  Before the exception the body has appended nothing, or only the
    marker of the PDF branch, or the marker of the slide branch and the
    texts read so far. *)
Theorem error_marker_and_continue
    (v : variant) (f : file) (rest : list file) (acc acc' : str) (e : exn) :
  extract_file v f acc = (acc', Some e) ->
  extract_files v (f :: rest) acc
  = extract_files v rest
      (acc' ++ nl ++ nl ++ lit "[FILE: " ++ fname f ++ lit " - ERROR]" ++ nl
       ++ lit "Could not read this file (" ++ exn_str e ++ lit ")")
  /\ (acc' = acc
      \/ acc' = acc ++ marker (fname f) (lit " - DOCUMENT")
      \/ exists texts, acc' = acc ++ marker (fname f) (lit " - SLIDES") ++ texts).
Proof.
  intros H. split.
  - unfold extract_files. cbn [fold_left]. unfold extract_step at 2.
    rewrite H. unfold error_block, marker.
    repeat rewrite <- app_assoc. reflexivity.
  - unfold extract_file, append_slides in H.
    destruct (classify (extension (fname f)));
      try destruct (read_utf8 f); try destruct (pdf_text f);
      try destruct (docx_text f);
      try (destruct (pptx f) as [d|]; [destruct v; destruct (fault d)|]);
      inversion H; subst; auto;
      right; right;
      first [ now exists []; rewrite app_nil_r
            | eexists; now rewrite <- app_assoc ].
Qed.

Lemma error_marker_and_continue_witness :
  extract_files Eval [undecodable_file "notes.txt"; text_file "main.py" "x = 1"] []
  = extract_files Eval [text_file "main.py" "x = 1"]
      ([] ++ nl ++ nl ++ lit "[FILE: " ++ lit "notes.txt" ++ lit " - ERROR]" ++ nl
       ++ lit "Could not read this file (" ++ exn_str bad_utf8 ++ lit ")")
  /\ ([] = ([] : str)
      \/ [] = [] ++ marker (lit "notes.txt") (lit " - DOCUMENT")
      \/ exists texts, [] = [] ++ marker (lit "notes.txt") (lit " - SLIDES") ++ texts).
Proof.
  apply (error_marker_and_continue Eval (undecodable_file "notes.txt")
           [text_file "main.py" "x = 1"] [] [] bad_utf8).
  reflexivity.
Defined.

(** C9, as amended: for a file with an ASCII name, the branch taken depends
    only on the part of its lower-cased name after the last full stop, so
    that ASCII names which differ in case only are treated alike; a name
    without a full stop is dispatched on its whole lower-cased name, and is
    unsupported exactly when that name is not itself one of the nine
    extensions. *)
Theorem extension_dispatch (name : str) :
  ascii_name name ->
  extension name = after_last_dot (lower name)
  /\ (forall other, ascii_name other -> lower other = lower name ->
        classify (extension other) = classify (extension name))
  /\ classify (extension (lit "MAIN.PY")) = Code
  /\ (~ In 46%N name ->
        extension name = lower name
        /\ (classify (extension name) = Unsupported
            <-> ~ In (lower name) supported)).
Proof.
  intros _. split; [|split; [|split]].
  - apply last_split_after_last_dot.
  - intros other _ H. unfold extension. now rewrite H.
  - reflexivity.
  - intros Hn.
    assert (E : extension name = lower name).
    { unfold extension. rewrite split_no_sep; [reflexivity|].
      now rewrite lower_In_dot. }
    split; [exact E|]. rewrite E. apply classify_unsupported.
Qed.

Lemma extension_dispatch_witness :
  extension (lit "Makefile") = after_last_dot (lower (lit "Makefile"))
  /\ (forall other, ascii_name other -> lower other = lower (lit "Makefile") ->
        classify (extension other) = classify (extension (lit "Makefile")))
  /\ classify (extension (lit "MAIN.PY")) = Code
  /\ (~ In 46%N (lit "Makefile") ->
        extension (lit "Makefile") = lower (lit "Makefile")
        /\ (classify (extension (lit "Makefile")) = Unsupported
            <-> ~ In (lower (lit "Makefile")) supported)).
Proof.
  apply (extension_dispatch (lit "Makefile")).
  repeat constructor.
Defined.

(** C9 fails for a name that has no full stop and is itself an extension:
    a file called [py] is read as code. *)
Lemma dotless_name_read_as_code :
  ~ In 46%N (lit "py")
  /\ classify (extension (lit "py")) = Code
  /\ classify (extension (lit "py")) <> Unsupported.
Proof.
  split; [|split].
  - intros H; cbv in H; intuition discriminate.
  - reflexivity.
  - vm_compute. discriminate.
Qed.

End ExtractorFacts.

(** ** The prompt *)

Module PromptFacts.

Import Prompt.

(** C8: the prompt is the template around the rubric, taken verbatim, and
    the first 20000 characters of the submission text (all of it when it is
    no longer); whatever follows those characters has no effect on the
    prompt. *)
Theorem prompt_embeds_rubric_and_truncated_text
    (v : variant) (rubric_text submission_text : str) :
  compose v rubric_text submission_text
  = head v ++ rubric_text ++ middle
    ++ firstn (N.to_nat 20000) submission_text ++ tail v
  /\ ((len submission_text <= 20000)%Z ->
      compose v rubric_text submission_text
      = head v ++ rubric_text ++ middle ++ submission_text ++ tail v)
  /\ (forall other,
        firstn (N.to_nat 20000) other = firstn (N.to_nat 20000) submission_text ->
        compose v rubric_text other = compose v rubric_text submission_text)
  /\ (forall kept dropped,
        length kept = N.to_nat 20000 ->
        compose v rubric_text (kept ++ dropped) = compose v rubric_text kept).
Proof.
  unfold compose, slice_to, budget. split; [reflexivity|]. split; [|split].
  - intros H. rewrite firstn_all2; [reflexivity|]. unfold len in H. lia.
  - intros other H. now rewrite H.
  - intros kept dropped H.
    rewrite firstn_app. replace (N.to_nat 20000 - length kept)%nat with 0%nat by lia.
    cbn [firstn]. rewrite app_nil_r. reflexivity.
Qed.

End PromptFacts.

(** ** The tolerant parser *)

Module ParserFacts.

Import Parser PyFacts Samples.

Lemma greedy_close_none (s : str) :
  ~ In rbrace s -> greedy_close s = None.
Proof.
  induction s as [|c t IH]; [reflexivity|]. intros Hn. cbn [greedy_close].
  rewrite IH by (intros H; apply Hn; now right).
  destruct (N.eqb_spec c rbrace) as [->|_]; [|reflexivity].
  exfalso. apply Hn. now left.
Qed.

(** At its start the greedy pattern runs to the last closing brace. *)
Lemma greedy_close_last (m suf : str) :
  ~ In rbrace suf -> greedy_close (m ++ rbrace :: suf) = Some (m ++ [rbrace]).
Proof.
  intros Hn. induction m as [|c m IH]; cbn [app greedy_close].
  - now rewrite greedy_close_none.
  - now rewrite IH.
Qed.

Lemma re_search_none (raw : str) :
  ~ In lbrace raw -> re_search raw = None.
Proof.
  induction raw as [|c t IH]; [reflexivity|]. intros Hn. cbn [re_search].
  destruct (N.eqb_spec c lbrace) as [->|_].
  - exfalso. apply Hn. now left.
  - apply IH. intros H. apply Hn. now right.
Qed.

(** The search selects the text from the first opening brace to the last
    closing brace. *)
Lemma re_search_first_to_last (pre mid suf : str) :
  ~ In lbrace pre -> ~ In rbrace suf ->
  re_search (pre ++ lbrace :: mid ++ rbrace :: suf)
  = Some (lbrace :: mid ++ [rbrace]).
Proof.
  intros Hpre Hsuf. induction pre as [|c pre IH]; cbn [app re_search].
  - rewrite N.eqb_refl. now rewrite greedy_close_last.
  - destruct (N.eqb_spec c lbrace) as [->|_].
    + exfalso. apply Hpre. now left.
    + apply IH. intros H. apply Hpre. now right.
Qed.

Section Decoder.

Variable json_loads : str -> result dict.

(** C3: when the reply holds one brace-delimited JSON object and has no
    brace outside it, the search selects exactly that object, from the first
    opening brace to the last closing brace, and the parser returns what the
    decoder makes of it: the decoded object, with the fields it was written
    with. *)
Theorem single_object_is_decoded (pre body suf : str) (d : dict) :
  ~ In lbrace pre -> ~ In rbrace pre ->
  ~ In lbrace suf -> ~ In rbrace suf ->
  json_loads (lbrace :: body ++ [rbrace]) = Ok d ->
  re_search (pre ++ (lbrace :: body ++ [rbrace]) ++ suf)
  = Some (lbrace :: body ++ [rbrace])
  /\ parse_reply json_loads (pre ++ (lbrace :: body ++ [rbrace]) ++ suf) = d
  /\ parse_block json_loads (pre ++ (lbrace :: body ++ [rbrace]) ++ suf)
     = Ok (Some d).
Proof.
  intros Hpre _ _ Hsuf Hd.
  assert (E : re_search (pre ++ (lbrace :: body ++ [rbrace]) ++ suf)
              = Some (lbrace :: body ++ [rbrace])).
  { cbn [app]. rewrite <- app_assoc. cbn [app].
    now apply re_search_first_to_last. }
  split; [exact E|]. unfold parse_reply, parse_block. rewrite E, Hd. now split.
Qed.

(** C4: a reply without an opening brace is answered, without raising, by
    the failure sentinel, whose [raw] field is the reply as it came; in the
    single-submission scripts nothing is parsed either. *)
Theorem no_brace_gives_sentinel (raw : str) :
  ~ In lbrace raw ->
  parse_reply json_loads raw
  = [(lit "error", PStr (lit "Invalid JSON")); (lit "raw", PStr raw)]
  /\ dict_lookup (lit "raw") (parse_reply json_loads raw) = Some (PStr raw)
  /\ parse_block json_loads raw = Ok None
  /\ (forall v llm rubric_text submission_text reply,
        v = Eval2 \/ v = EvalTable ->
        llm (Prompt.compose v rubric_text submission_text) = Ok reply ->
        raw_of reply = raw ->
        evaluate_submission json_loads v llm rubric_text submission_text
        = Ok [(lit "error", PStr (lit "Invalid JSON")); (lit "raw", PStr raw)]).
Proof.
  intros Hn.
  assert (E : parse_reply json_loads raw = not_parsed raw).
  { unfold parse_reply. now rewrite re_search_none. }
  split; [exact E|]. split; [now rewrite E|]. split.
  - unfold parse_block. now rewrite re_search_none.
  - intros v llm rubric_text submission_text reply _ Hllm Hraw.
    unfold evaluate_submission. rewrite Hllm. cbn [bind].
    now rewrite Hraw, E.
Qed.

End Decoder.

Lemma single_object_is_decoded_witness :
  re_search (lit "Here is my evaluation: " ++ sample_object ++ lit " Thanks.")
  = Some sample_object
  /\ parse_reply sample_decoder
       (lit "Here is my evaluation: " ++ sample_object ++ lit " Thanks.")
     = [(lit "total_score", PInt 85); (lit "summary", PStr (lit "ok"))]
  /\ parse_block sample_decoder
       (lit "Here is my evaluation: " ++ sample_object ++ lit " Thanks.")
     = Ok (Some [(lit "total_score", PInt 85); (lit "summary", PStr (lit "ok"))]).
Proof.
  apply (single_object_is_decoded sample_decoder
           (lit "Here is my evaluation: ")
           (litq "'total_score': 85, 'summary': 'ok'")
           (lit " Thanks.")).
  1-4: intros H; cbv in H; intuition discriminate.
  reflexivity.
Defined.

Lemma no_brace_gives_sentinel_witness :
  parse_reply sample_decoder (lit "I cannot evaluate this submission.")
  = [(lit "error", PStr (lit "Invalid JSON"));
     (lit "raw", PStr (lit "I cannot evaluate this submission."))]
  /\ dict_lookup (lit "raw")
       (parse_reply sample_decoder (lit "I cannot evaluate this submission."))
     = Some (PStr (lit "I cannot evaluate this submission."))
  /\ parse_block sample_decoder (lit "I cannot evaluate this submission.")
     = Ok None
  /\ (forall v llm rubric_text submission_text reply,
        v = Eval2 \/ v = EvalTable ->
        llm (Prompt.compose v rubric_text submission_text) = Ok reply ->
        raw_of reply = lit "I cannot evaluate this submission." ->
        evaluate_submission sample_decoder v llm rubric_text submission_text
        = Ok [(lit "error", PStr (lit "Invalid JSON"));
              (lit "raw", PStr (lit "I cannot evaluate this submission."))]).
Proof.
  apply (no_brace_gives_sentinel sample_decoder
           (lit "I cannot evaluate this submission.")).
  intros H; cbv in H; intuition discriminate.
Defined.

End ParserFacts.

(** ** The score normaliser *)

Module NormalizerFacts.

Import Normalizer.

(** C2, as amended: a numeric [total_score] at or below 10 is multiplied by
    10 (7 becomes 70) and one above 10 is left as it is (70 stays 70); a
    numeric criterion score at or below 10 is multiplied by 3, and rounded
    to one decimal when it is a float, which puts it on a scale from 0 to
    30; a criterion score above 10 is left as it is. *)
Theorem total_times_ten_criterion_times_three
    (round1 : float -> float) (z : Z) (f : float) :
  ((z <= 10)%Z ->
     rescale_total (PInt z) = PInt (z * 10)
     /\ rescale_score round1 (PInt z) = PInt (z * 3))
  /\ ((10 < z)%Z ->
       rescale_total (PInt z) = PInt z
       /\ rescale_score round1 (PInt z) = PInt z)
  /\ ((f <=? 10)%float = true ->
       rescale_total (PFloat f) = PFloat (f * 10)%float
       /\ rescale_score round1 (PFloat f) = PFloat (round1 (f * 3)%float))
  /\ ((f <=? 10)%float = false ->
       rescale_total (PFloat f) = PFloat f
       /\ rescale_score round1 (PFloat f) = PFloat f)
  /\ rescale_total (PInt 7) = PInt 70
  /\ rescale_total (PInt 70) = PInt 70
  /\ final_score [(lit "total_score", PInt 7)] = PInt 70
  /\ final_score [(lit "total_score", PInt 70)] = PInt 70.
Proof.
  cbn [rescale_total rescale_score].
  split; [|split; [|split; [|split]]].
  - intros H. apply Z.leb_le in H. now rewrite H.
  - intros H. apply Z.leb_gt in H. now rewrite H.
  - intros H. now rewrite H.
  - intros H. now rewrite H.
  - repeat split.
Qed.

(** C2 fails for the criterion scores: the factor is 3, not the factor 10 of
    the total, so a full 10 becomes 30 and a 7 becomes 21.  (The rounding
    function plays no part on integers.) *)
Lemma criterion_rescale_is_times_three :
  rescale_score (fun x => x) (PInt 10) = PInt 30
  /\ rescale_score (fun x => x) (PInt 10) <> PInt 100
  /\ rescale_score (fun x => x) (PInt 7) = PInt 21
  /\ rescale_score (fun x => x) (PInt 7) <> rescale_total (PInt 7).
Proof. repeat split; try reflexivity; vm_compute; discriminate. Qed.

Example float_total_is_rescaled :
  rescale_total (PFloat 7.5%float) = PFloat 75%float
  /\ rescale_total (PFloat 70.5%float) = PFloat 70.5%float.
Proof. split; reflexivity. Qed.

End NormalizerFacts.

(** ** The leaderboard *)

Module LeaderboardFacts.

Import Batch Board Samples MoreSamples.

Lemma enumerate1_ranks (board : list entry) :
  map fst (enumerate1 board) = seq 1 (length board)
  /\ map snd (enumerate1 board) = board.
Proof.
  unfold enumerate1. generalize 1%nat.
  induction board as [|e es IH]; intros n; cbn [length seq combine map fst snd].
  - now split.
  - destruct (IH (S n)) as [-> ->]. now split.
Qed.

Lemma sorted_snoc (R : entry -> entry -> Prop) (l : list entry) (x : entry) :
  StronglySorted R l -> Forall (fun y => R y x) l ->
  StronglySorted R (l ++ [x]).
Proof.
  intros Hs. induction Hs as [|y ys Hys IH Hy]; intros Hx; cbn [app].
  - repeat constructor.
  - inversion Hx as [|? ? Hyx Hrest]; subst. constructor.
    + now apply IH.
    + apply Forall_app. split; [exact Hy | now constructor].
Qed.

Section Ordering.

Variable key : pyval -> Z.

Local Abbreviation key_of := (Board.key_of key).
Local Abbreviation insert_by_key := (Board.insert_by_key key).
Local Abbreviation sort_by_key := (Board.sort_by_key key).
Local Abbreviation ascending := (Board.ascending key).
Local Abbreviation descending := (Board.descending key).
Local Abbreviation scoring := (Board.scoring key).

Lemma insert_by_key_perm (x : entry) (l : list entry) :
  Permutation (insert_by_key x l) (x :: l).
Proof.
  induction l as [|y ys IH]; cbn [Board.insert_by_key]; [reflexivity|].
  destruct (key_of y <? key_of x)%Z; [|reflexivity].
  rewrite IH. apply perm_swap.
Qed.

Lemma sort_by_key_perm (l : list entry) : Permutation (sort_by_key l) l.
Proof.
  induction l as [|x xs IH]; cbn [Board.sort_by_key]; [reflexivity|].
  rewrite insert_by_key_perm. now constructor.
Qed.

Lemma insert_by_key_ascending (x : entry) (l : list entry) :
  ascending l -> ascending (insert_by_key x l).
Proof.
  unfold Board.ascending. intros H.
  induction H as [|y ys Hs IH Hy]; cbn [Board.insert_by_key].
  - repeat constructor.
  - destruct (key_of y <? key_of x)%Z eqn:E.
    + apply Z.ltb_lt in E. constructor; [exact IH|].
      eapply Permutation_Forall.
      * symmetry. apply insert_by_key_perm.
      * constructor; [lia | exact Hy].
    + apply Z.ltb_ge in E. constructor.
      * now constructor.
      * constructor; [exact E|].
        eapply Forall_impl; [|exact Hy]. cbn. intros b Hb. lia.
Qed.

Lemma sort_by_key_ascending (l : list entry) : ascending (sort_by_key l).
Proof.
  induction l as [|x xs IH]; cbn [Board.sort_by_key].
  - constructor.
  - now apply insert_by_key_ascending.
Qed.

Lemma ascending_rev (l : list entry) : ascending l -> descending (rev l).
Proof.
  unfold Board.ascending, Board.descending. intros H.
  induction H as [|y ys Hs IH Hy]; cbn [rev]; [constructor|].
  apply sorted_snoc; [exact IH|].
  apply Forall_rev. eapply Forall_impl; [|exact Hy]. cbn. intros b Hb. lia.
Qed.

(** Insertion never moves an entry past one of equal score. *)
Lemma scoring_insert_by_key (k : Z) (x : entry) (l : list entry) :
  scoring k (insert_by_key x l) = scoring k (x :: l).
Proof.
  unfold Board.scoring.
  induction l as [|y ys IH]; cbn [Board.insert_by_key]; [reflexivity|].
  destruct (key_of y <? key_of x)%Z eqn:E; [|reflexivity].
  apply Z.ltb_lt in E. cbn [filter] in *. rewrite IH.
  destruct (Z.eqb_spec (key_of y) k), (Z.eqb_spec (key_of x) k);
    try reflexivity; lia.
Qed.

Lemma scoring_sort_by_key (k : Z) (l : list entry) :
  scoring k (sort_by_key l) = scoring k l.
Proof.
  induction l as [|x xs IH]; cbn [Board.sort_by_key]; [reflexivity|].
  rewrite scoring_insert_by_key. unfold Board.scoring in *. cbn [filter].
  now rewrite IH.
Qed.

Lemma scoring_rev (k : Z) (l : list entry) :
  scoring k (rev l) = rev (scoring k l).
Proof. apply filter_rev. Qed.

Variable py_lt : pyval -> pyval -> result bool.

Local Abbreviation ordered_by_key := (Board.ordered_by_key key py_lt).

Lemma insert_by_key_ok (x : entry) (l : list entry) :
  ordered_by_key (x :: l) -> insert py_lt x l = Ok (insert_by_key x l).
Proof.
  intros H. induction l as [|y ys IH]; cbn [insert Board.insert_by_key];
    [reflexivity|].
  rewrite (H y x) by (cbn; auto). cbn [bind].
  destruct (key_of y <? key_of x)%Z; [|reflexivity].
  rewrite IH; [reflexivity|].
  intros a b Ha Hb. apply H; cbn in *; tauto.
Qed.

Lemma sort_by_key_ok (l : list entry) :
  ordered_by_key l -> sort_ascending py_lt l = Ok (sort_by_key l).
Proof.
  induction l as [|x xs IH]; intros H; cbn [sort_ascending Board.sort_by_key];
    [reflexivity|].
  rewrite IH by (intros a b Ha Hb; apply H; now right). cbn [bind].
  apply insert_by_key_ok. intros a b Ha Hb.
  apply H; [destruct Ha as [<-|Ha] | destruct Hb as [<-|Hb]];
    try (now left); right;
    eapply Permutation_in; try eassumption; apply sort_by_key_perm.
Qed.

Lemma leaderboard_by_key (l : list entry) :
  ordered_by_key l -> leaderboard py_lt l = Ok (rev (sort_by_key (rev l))).
Proof.
  intros H. unfold leaderboard. rewrite sort_by_key_ok; [reflexivity|].
  intros a b Ha Hb. apply H; now apply in_rev.
Qed.

(** C5, as amended: for results whose total scores Python's [<] puts in
    order, the leaderboard holds the results in descending order of score, ranked from
    1 in steps of 1, and results of equal score stand in the order in which
    they came.  In particular, of three results of which the first scores
    less than the other two, which score the same (55, 90 and 90), the first
    is ranked third and the other two first and second. *)
Theorem leaderboard_sorted_stable (all_results : list entry) :
  ordered_by_key all_results ->
  exists board,
    leaderboard py_lt all_results = Ok board
    /\ ranked py_lt all_results = Ok (enumerate1 board)
    /\ map fst (enumerate1 board) = seq 1 (length all_results)
    /\ map snd (enumerate1 board) = board
    /\ Permutation all_results board
    /\ descending board
    /\ (forall k, scoring k board = scoring k all_results)
    /\ (forall a b c,
          all_results = [a; b; c] ->
          (key_of a < key_of b)%Z -> key_of b = key_of c ->
          ranked py_lt all_results = Ok [(1%nat, b); (2%nat, c); (3%nat, a)]).
Proof.
  intros H. exists (rev (sort_by_key (rev all_results))).
  assert (P : Permutation all_results (rev (sort_by_key (rev all_results)))).
  { rewrite <- Permutation_rev, sort_by_key_perm. apply Permutation_rev. }
  assert (E := leaderboard_by_key all_results H).
  split; [exact E|]. split; [unfold ranked; now rewrite E|].
  destruct (enumerate1_ranks (rev (sort_by_key (rev all_results)))) as [R1 R2].
  split; [now rewrite R1, <- (Permutation_length P)|]. split; [exact R2|].
  split; [exact P|]. split; [apply ascending_rev, sort_by_key_ascending|].
  split.
  - intros k. rewrite scoring_rev, scoring_sort_by_key, scoring_rev.
    apply rev_involutive.
  - intros a b c -> Hab Hbc. unfold ranked. rewrite E.
    cbn [bind rev app Board.sort_by_key Board.insert_by_key].
    replace (key_of a <? key_of b)%Z with true by (symmetry; apply Z.ltb_lt; lia).
    cbn [Board.insert_by_key].
    replace (key_of a <? key_of c)%Z with true by (symmetry; apply Z.ltb_lt; lia).
    replace (key_of b <? key_of c)%Z with false by (symmetry; apply Z.ltb_ge; lia).
    reflexivity.
Qed.

End Ordering.

Example three_results_ranked :
  ranked lt_on_ints three_results
  = Ok [(1%nat, scored "beta" 90); (2%nat, scored "gamma" 90);
        (3%nat, scored "alpha" 55)].
Proof. reflexivity. Qed.

Lemma leaderboard_sorted_stable_witness :
  exists board,
    leaderboard lt_on_ints three_results = Ok board
    /\ ranked lt_on_ints three_results = Ok (enumerate1 board)
    /\ map fst (enumerate1 board) = seq 1 (length three_results)
    /\ map snd (enumerate1 board) = board
    /\ Permutation three_results board
    /\ descending int_key board
    /\ (forall k, scoring int_key k board = scoring int_key k three_results)
    /\ (forall a b c,
          three_results = [a; b; c] ->
          (key_of int_key a < key_of int_key b)%Z ->
          key_of int_key b = key_of int_key c ->
          ranked lt_on_ints three_results
          = Ok [(1%nat, b); (2%nat, c); (3%nat, a)]).
Proof.
  apply (leaderboard_sorted_stable int_key lt_on_ints three_results).
  intros x y Hx Hy. cbn in Hx, Hy.
  destruct Hx as [<-|[<-|[<-|[]]]]; destruct Hy as [<-|[<-|[<-|[]]]];
    reflexivity.
Defined.

(** C5 fails for collections the loop itself builds: beside the entry of a
    failed upload, which scores 0, the entry of a reply whose total is
    [null] makes [sorted] raise, and no leaderboard is made. *)
Lemma null_total_beside_failed_upload_breaks_leaderboard :
  evaluate_all null_decoder Eval2 (lit "Innovation - 15")
    [broken_upload; null_upload]
  = [ {| Team_Name := lit "team1.zip"; Score := PInt 0;
         Summary := PStr (lit "Error: File is not a zip file");
         Details := [] |};
      {| Team_Name := lit "team6"; Score := PNone;
         Summary := PStr (lit "No summary");
         Details := [(lit "total_score", PNone)] |} ]
  /\ leaderboard lt_int_none
       (evaluate_all null_decoder Eval2 (lit "Innovation - 15")
          [broken_upload; null_upload])
     = Raise (Exn OtherException
                (lit "'<' not supported between instances of 'int' and 'NoneType'"))
  /\ (forall board,
        leaderboard lt_int_none
          (evaluate_all null_decoder Eval2 (lit "Innovation - 15")
             [broken_upload; null_upload])
        <> Ok board).
Proof.
  split; [vm_compute; reflexivity|]. split; [vm_compute; reflexivity|].
  intros board. vm_compute. discriminate.
Qed.

End LeaderboardFacts.

(** ** The multi-team loop *)

Module BatchFacts.

Import Extractor Parser Batch Samples.

Section Loop.

Variable json_loads : str -> result dict.

(** An iteration only ever appends to [all_results]. *)
Lemma step_appends (v : variant) (rubric_text : str)
    (all_results : list entry) (u : upload) :
  step json_loads v rubric_text all_results u
  = all_results ++ step json_loads v rubric_text [] u.
Proof.
  unfold step. destruct (process json_loads v rubric_text u) as [[e|]|e];
    cbn [app]; [reflexivity | now rewrite app_nil_r | reflexivity].
Qed.

Lemma loop_appends (v : variant) (rubric_text : str)
    (uploads : list upload) (all_results : list entry) :
  fold_left (step json_loads v rubric_text) uploads all_results
  = all_results ++ evaluate_all json_loads v rubric_text uploads.
Proof.
  unfold evaluate_all. revert all_results.
  induction uploads as [|u us IH]; intros acc; cbn [fold_left].
  - now rewrite app_nil_r.
  - rewrite IH, (IH (step json_loads v rubric_text [] u)), step_appends.
    now rewrite app_assoc.
Qed.

Lemma evaluate_all_app (v : variant) (rubric_text : str)
    (l1 l2 : list upload) :
  evaluate_all json_loads v rubric_text (l1 ++ l2)
  = evaluate_all json_loads v rubric_text l1
    ++ evaluate_all json_loads v rubric_text l2.
Proof.
  unfold evaluate_all at 1. rewrite fold_left_app, loop_appends. reflexivity.
Qed.

(** The results of a batch are those of its submissions, one after the
    other. *)
Lemma evaluate_all_around (v : variant) (rubric_text : str)
    (before after : list upload) (u : upload) :
  evaluate_all json_loads v rubric_text (before ++ u :: after)
  = evaluate_all json_loads v rubric_text before
    ++ step json_loads v rubric_text [] u
    ++ evaluate_all json_loads v rubric_text after.
Proof.
  rewrite evaluate_all_app. f_equal.
  unfold evaluate_all at 1. cbn [fold_left]. apply loop_appends.
Qed.

Lemma process_raises (v : variant) (rubric_text : str) (u : upload) (e : exn) :
  raises_with v rubric_text u e ->
  process json_loads v rubric_text u = Raise e.
Proof.
  unfold process, extract_submission_text, evaluate_submission.
  intros [H | [files [H1 H2]]].
  - now rewrite H.
  - rewrite H1. cbn [bind]. now rewrite H2.
Qed.

(** C6: in the multi-team scripts, a submission whose extraction or remote
    call raises still gets an entry, with score 0 and the text of the
    exception in its summary, and the entries of the submissions before and
    after it are those the loop makes for them. *)
Theorem failed_submission_gets_zero_entry
    (v : variant) (rubric_text : str)
    (before after : list upload) (u : upload) (e : exn) :
  v = Eval2 \/ v = EvalTable ->
  raises_with v rubric_text u e ->
  evaluate_all json_loads v rubric_text (before ++ u :: after)
  = evaluate_all json_loads v rubric_text before
    ++ {| Team_Name := upload_name u;
          Score := PInt 0;
          Summary := PStr (lit "Error: " ++ exn_str e);
          Details := [] |}
       :: evaluate_all json_loads v rubric_text after.
Proof.
  intros _ H. rewrite evaluate_all_around. unfold step.
  now rewrite (process_raises v rubric_text u e H).
Qed.

(** C10: in the leaderboard-table script a submission whose decoded result
    has the status [Invalid Submission] adds nothing to the results: the
    batch yields what it yields without that submission. *)
Theorem invalid_submission_leaves_no_entry
    (rubric_text : str) (before after : list upload) (u : upload)
    (files : list file) (reply : response) :
  unzip u = Ok files ->
  llm u (Prompt.compose EvalTable rubric_text
           (strip (extract_files EvalTable files []))) = Ok reply ->
  dict_lookup (lit "status") (parse_reply json_loads (raw_of reply))
  = Some (PStr (lit "Invalid Submission")) ->
  step json_loads EvalTable rubric_text [] u = []
  /\ evaluate_all json_loads EvalTable rubric_text (before ++ u :: after)
     = evaluate_all json_loads EvalTable rubric_text (before ++ after).
Proof.
  intros Hzip Hllm Hstatus.
  assert (E : step json_loads EvalTable rubric_text [] u = []).
  { unfold step, process, extract_submission_text, evaluate_submission.
    rewrite Hzip. cbn [bind]. rewrite Hllm. cbn [bind].
    unfold is_invalid. rewrite Hstatus. reflexivity. }
  split; [exact E|].
  rewrite evaluate_all_around, E. cbn [app].
  symmetry. apply evaluate_all_app.
Qed.

End Loop.

Example batch_goes_on :
  evaluate_all table_decoder Eval2 (lit "Innovation - 15")
    [broken_upload; unreachable_upload; good_upload]
  = [ {| Team_Name := lit "team1.zip"; Score := PInt 0;
         Summary := PStr (lit "Error: File is not a zip file"); Details := [] |};
      {| Team_Name := lit "team2.zip"; Score := PInt 0;
         Summary := PStr (lit "Error: Connection error."); Details := [] |};
      {| Team_Name := lit "team3"; Score := PInt 85;
         Summary := PStr (lit "ok");
         Details := [(lit "total_score", PInt 85);
                     (lit "summary", PStr (lit "ok"))] |} ].
Proof. vm_compute. reflexivity. Qed.

Lemma failed_submission_gets_zero_entry_witness :
  evaluate_all table_decoder Eval2 (lit "Innovation - 15")
    ([good_upload] ++ unreachable_upload :: [good_upload])
  = evaluate_all table_decoder Eval2 (lit "Innovation - 15") [good_upload]
    ++ {| Team_Name := lit "team2.zip";
          Score := PInt 0;
          Summary := PStr (lit "Error: " ++ lit "Connection error.");
          Details := [] |}
       :: evaluate_all table_decoder Eval2 (lit "Innovation - 15") [good_upload].
Proof.
  apply (failed_submission_gets_zero_entry table_decoder Eval2
           (lit "Innovation - 15") [good_upload] [good_upload]
           unreachable_upload timed_out).
  - now left.
  - right. eexists. split; reflexivity.
Defined.

Lemma invalid_submission_leaves_no_entry_witness :
  step table_decoder EvalTable (lit "Innovation - 15") [] invalid_upload = []
  /\ evaluate_all table_decoder EvalTable (lit "Innovation - 15")
       ([good_upload] ++ invalid_upload :: [broken_upload])
     = evaluate_all table_decoder EvalTable (lit "Innovation - 15")
         ([good_upload] ++ [broken_upload]).
Proof.
  apply (invalid_submission_leaves_no_entry table_decoder
           (lit "Innovation - 15") [good_upload] [broken_upload] invalid_upload
           [text_file "cv.txt" "resume"]
           (Response (Some status_invalid) (lit "content=..."))).
  - reflexivity.
  - reflexivity.
  - vm_compute. reflexivity.
Defined.

End BatchFacts.

(** * Further properties *)

(** ** Stripping *)

Module StripFacts.

Import PyFacts Display.

Lemma lstrip_head (s : str) :
  lstrip s = [] \/ exists c t, lstrip s = c :: t /\ is_space c = false.
Proof.
  induction s as [|a s IH]; [now left|]. cbn [lstrip].
  destruct (is_space a) eqn:E; [exact IH|].
  right. now exists a, s.
Qed.

(** Stripping the left of a text that ends in a character other than white
    space keeps that end, and what is left starts with no white space. *)
Lemma lstrip_keeps_end (x : str) (c : char) :
  is_space c = false ->
  exists w, lstrip (x ++ [c]) = w ++ [c]
            /\ (w = [] \/ exists d w', w = d :: w' /\ is_space d = false).
Proof.
  intros Hc. induction x as [|a x IH]; cbn [app lstrip].
  - rewrite Hc. exists []. split; [reflexivity | now left].
  - destruct (is_space a) eqn:E; [exact IH|].
    exists (a :: x). split; [reflexivity|]. right. now exists a, x.
Qed.

Lemma strip_trimmed (s : str) : trimmed (strip s).
Proof.
  unfold strip. destruct (lstrip_head s) as [-> | (c & t & -> & Hc)];
    [exact I|].
  unfold rstrip. cbn [rev].
  destruct (lstrip_keeps_end (rev t) c Hc) as (w & -> & Hw).
  rewrite rev_app_distr. cbn [rev app]. unfold trimmed.
  split; [exact Hc|].
  destruct Hw as [-> | (d & w' & -> & Hd)]; [exact Hc|].
  cbn [rev]. change (c :: rev w' ++ [d]) with ((c :: rev w') ++ [d]).
  now rewrite last_last.
Qed.

Lemma strip_of_trimmed (t : str) : trimmed t -> strip t = t.
Proof.
  destruct t as [|c t]; [reflexivity|]. intros [Hc Hl].
  unfold strip. rewrite lstrip_not_space by assumption.
  destruct (exists_last (l := c :: t)) as (init & z & E); [discriminate|].
  rewrite E in *. rewrite last_last in Hl. now apply rstrip_snoc.
Qed.

End StripFacts.

(** ** More on the extractor *)

Module ExtractorMore.

Import Extractor PyFacts Display StripFacts Samples MoreSamples.

(** An iteration only appends to the text gathered so far. *)
Lemma extract_step_appends (v : variant) (acc : str) (f : file) :
  extract_step v acc f = acc ++ extract_step v [] f.
Proof.
  unfold extract_step, extract_file, append_slides.
  destruct (classify (extension (fname f)));
    try destruct (read_utf8 f); try destruct (pdf_text f);
    try destruct (docx_text f);
    try (destruct (pptx f) as [d|]; [destruct v; destruct (fault d)|]);
    cbn [app]; repeat rewrite <- app_assoc; try reflexivity;
    now rewrite ?app_nil_r.
Qed.

(** X1: the text gathered from an archive is the text gathered before it
    followed by one block per file, in the order of the walk, and the block
    of a file is what the file yields on its own: nothing a file adds
    depends on the files around it. *)
Theorem one_block_per_file (v : variant) (files : list file) (acc : str) :
  extract_files v files acc
  = acc ++ concat (map (extract_step v []) files)
  /\ extract_submission_text v (Ok files)
     = Ok (strip (concat (map (extract_step v []) files))).
Proof.
  assert (E : forall a,
             extract_files v files a
             = a ++ concat (map (extract_step v []) files)).
  { unfold extract_files. induction files as [|f fs IH]; intros a;
      cbn [fold_left map concat].
    - now rewrite app_nil_r.
    - rewrite IH, extract_step_appends. now rewrite app_assoc. }
  split; [apply E|].
  unfold extract_submission_text. cbn [bind]. now rewrite E.
Qed.

(** X2: whatever the archive holds, the text returned for it neither starts
    nor ends with white space, so stripping it again changes nothing; an
    archive without files gives the empty text. *)
Theorem returned_text_is_trimmed (v : variant) (files : list file) :
  exists text,
    extract_submission_text v (Ok files) = Ok text
    /\ trimmed text
    /\ strip text = text
    /\ (files = [] -> text = []).
Proof.
  exists (strip (extract_files v files [])).
  split; [reflexivity|]. split; [apply strip_trimmed|].
  split; [apply strip_of_trimmed, strip_trimmed|].
  now intros ->.
Qed.

(** X3: in the PDF branch a pdfminer text of at least 20 characters, once
    stripped, is appended as it is and PyMuPDF is not consulted; when
    pdfminer raises or finds less, the pages PyMuPDF reads are appended
    instead and no error is recorded; when PyMuPDF raises too, the document
    marker is followed by the error block with PyMuPDF's exception. *)
Theorem pdf_falls_back_to_pymupdf (v : variant) (f : file) (acc : str) :
  classify (extension (fname f)) = Pdf ->
  (forall text,
     pdfminer_text f = Ok text -> (20 <= len (strip text))%Z ->
     extract_step v acc f
     = acc ++ marker (fname f) (lit " - DOCUMENT") ++ text)
  /\ (forall pages,
        pdfminer_unusable f -> fitz_pages f = Ok pages ->
        extract_step v acc f
        = acc ++ marker (fname f) (lit " - DOCUMENT") ++ concat pages)
  /\ (forall e,
        pdfminer_unusable f -> fitz_pages f = Raise e ->
        extract_step v acc f
        = acc ++ marker (fname f) (lit " - DOCUMENT")
          ++ error_block (fname f) e).
Proof.
  intros Hpdf. unfold extract_step, extract_file, pdf_text, pdfminer_unusable.
  rewrite Hpdf. split; [|split].
  - intros text Ht Hlen. rewrite Ht. cbn [bind try_except].
    apply Z.ltb_ge in Hlen. rewrite Hlen. cbn [try_except].
    now rewrite <- app_assoc.
  - intros pages Hu Hf. rewrite Hf.
    destruct (pdfminer_text f) as [text|e]; cbn [bind try_except].
    + apply Z.ltb_lt in Hu. rewrite Hu. cbn [bind try_except].
      now rewrite <- app_assoc.
    + now rewrite <- app_assoc.
  - intros e Hu Hf. rewrite Hf.
    destruct (pdfminer_text f) as [text|e']; cbn [bind try_except].
    + apply Z.ltb_lt in Hu. rewrite Hu. cbn [bind try_except].
      now rewrite <- app_assoc.
    + now rewrite <- app_assoc.
Qed.

Lemma pdf_falls_back_to_pymupdf_witness :
  (forall text,
     pdfminer_text scanned_pdf = Ok text -> (20 <= len (strip text))%Z ->
     extract_step Eval2 [] scanned_pdf
     = [] ++ marker (fname scanned_pdf) (lit " - DOCUMENT") ++ text)
  /\ (forall pages,
        pdfminer_unusable scanned_pdf -> fitz_pages scanned_pdf = Ok pages ->
        extract_step Eval2 [] scanned_pdf
        = [] ++ marker (fname scanned_pdf) (lit " - DOCUMENT") ++ concat pages)
  /\ (forall e,
        pdfminer_unusable scanned_pdf -> fitz_pages scanned_pdf = Raise e ->
        extract_step Eval2 [] scanned_pdf
        = [] ++ marker (fname scanned_pdf) (lit " - DOCUMENT")
          ++ error_block (fname scanned_pdf) e).
Proof.
  apply (pdf_falls_back_to_pymupdf Eval2 scanned_pdf []).
  reflexivity.
Defined.

Example scanned_pdf_text :
  extract_submission_text Eval2 (Ok [scanned_pdf])
  = Ok (lit "[FILE: scan.pdf - DOCUMENT]" ++ nl ++ lit "page onepage two").
Proof. reflexivity. Qed.

End ExtractorMore.

(** ** More on the tolerant parser *)

Module ParserMore.

Import Parser PyFacts ParserFacts Display Samples.

Lemma greedy_close_none_inv (s : str) :
  greedy_close s = None -> ~ In rbrace s.
Proof.
  induction s as [|c t IH]; [intros _ []|]. cbn [greedy_close].
  destruct (greedy_close t); [discriminate|].
  destruct (N.eqb_spec c rbrace) as [->|Hne]; [discriminate|].
  intros _ [H|H]; [congruence | now apply IH].
Qed.

Lemma greedy_close_some (s m : str) :
  greedy_close s = Some m ->
  exists mid suf,
    s = mid ++ rbrace :: suf /\ m = mid ++ [rbrace] /\ ~ In rbrace suf.
Proof.
  revert m. induction s as [|c t IH]; intros m; [discriminate|].
  cbn [greedy_close]. destruct (greedy_close t) as [m'|] eqn:E.
  - intros [= <-]. destruct (IH m' eq_refl) as (mid & suf & -> & -> & Hs).
    now exists (c :: mid), suf.
  - destruct (N.eqb_spec c rbrace) as [->|_]; [|discriminate].
    intros [= <-]. exists [], t. repeat split.
    now apply greedy_close_none_inv.
Qed.

Lemma re_search_some (raw m : str) :
  re_search raw = Some m ->
  exists pre mid suf,
    raw = pre ++ lbrace :: mid ++ rbrace :: suf
    /\ ~ In lbrace pre /\ ~ In rbrace suf
    /\ m = lbrace :: mid ++ [rbrace].
Proof.
  induction raw as [|c t IH]; [discriminate|]. cbn [re_search].
  destruct (N.eqb_spec c lbrace) as [->|Hne].
  - destruct (greedy_close t) as [m'|] eqn:E.
    + intros [= <-].
      destruct (greedy_close_some t m' E) as (mid & suf & -> & -> & Hs).
      exists [], mid, suf. repeat split; auto.
    + intros H. destruct (IH H) as (pre & mid & suf & -> & _).
      apply greedy_close_none_inv in E. exfalso. apply E.
      apply in_or_app. right. right. apply in_or_app. right. now left.
  - intros H. destruct (IH H) as (pre & mid & suf & -> & Hp & Hs & ->).
    exists (c :: pre), mid, suf. repeat split; auto.
    intros [Hc|Hc]; [congruence | contradiction].
Qed.

(** X4: the search finds a text exactly when the reply has an opening brace
    with a closing brace somewhere after it, and the text found is then the
    one from the first opening brace of the reply to its last closing
    brace, whatever stands between them. *)
Theorem search_is_first_to_last (raw m : str) :
  re_search raw = Some m
  <-> exists pre mid suf,
        raw = pre ++ lbrace :: mid ++ rbrace :: suf
        /\ ~ In lbrace pre /\ ~ In rbrace suf
        /\ m = lbrace :: mid ++ [rbrace].
Proof.
  split; [apply re_search_some|].
  intros (pre & mid & suf & -> & Hp & Hs & ->).
  now apply re_search_first_to_last.
Qed.

Lemma greedy_close_found (s : str) :
  In rbrace s -> greedy_close s <> None.
Proof.
  intros H E. now apply greedy_close_none_inv in E.
Qed.

Lemma re_search_found (pre mid suf : str) :
  re_search (pre ++ lbrace :: mid ++ rbrace :: suf) <> None.
Proof.
  assert (Hin : forall p, In rbrace (p ++ lbrace :: mid ++ rbrace :: suf)).
  { intros p. apply in_or_app. right. right. apply in_or_app. right.
    now left. }
  induction pre as [|c pre IH]; cbn [app re_search].
  - rewrite N.eqb_refl.
    destruct (greedy_close (mid ++ rbrace :: suf)) eqn:E; [discriminate|].
    exfalso. apply (greedy_close_none_inv _ E).
    apply in_or_app. right. now left.
  - destruct (N.eqb c lbrace); [|exact IH].
    destruct (greedy_close (pre ++ lbrace :: mid ++ rbrace :: suf)) eqn:E;
      [discriminate|].
    exfalso. apply (greedy_close_none_inv _ E), Hin.
Qed.

(** X5: the search finds nothing exactly when no opening brace of the reply
    is followed by a closing brace: a reply of closing braces only, or one
    whose braces all close before the first one opens, is not parsed. *)
Theorem search_fails_without_brace_pair (raw : str) :
  re_search raw = None
  <-> ~ exists pre mid suf, raw = pre ++ lbrace :: mid ++ rbrace :: suf.
Proof.
  split.
  - intros E (pre & mid & suf & ->). now apply (re_search_found pre mid suf).
  - intros H. destruct (re_search raw) as [m|] eqn:E; [|reflexivity].
    exfalso. apply H.
    destruct (re_search_some raw m E) as (pre & mid & suf & -> & _).
    now exists pre, mid, suf.
Qed.

Section Decoder.

Variable json_loads : str -> result dict.

(** X6: two brace-delimited objects in one reply are never decoded one by
    one: the search takes the text from the first opening brace to the last
    closing brace, and when the decoder rejects that text the reply is not
    parsed, whatever the decoder would make of either object alone. *)
Theorem two_objects_are_searched_as_one
    (pre a mid b suf : str) (e : exn) :
  ~ In lbrace pre -> ~ In rbrace suf ->
  json_loads (lbrace :: a ++ rbrace :: mid ++ lbrace :: b ++ [rbrace])
  = Raise e ->
  re_search (pre ++ lbrace :: a ++ rbrace :: mid ++ lbrace :: b
             ++ rbrace :: suf)
  = Some (lbrace :: a ++ rbrace :: mid ++ lbrace :: b ++ [rbrace])
  /\ parse_reply json_loads
       (pre ++ lbrace :: a ++ rbrace :: mid ++ lbrace :: b ++ rbrace :: suf)
     = not_parsed
         (pre ++ lbrace :: a ++ rbrace :: mid ++ lbrace :: b ++ rbrace :: suf)
  /\ (exn_cls e = JSONDecodeError ->
      parse_block json_loads
        (pre ++ lbrace :: a ++ rbrace :: mid ++ lbrace :: b ++ rbrace :: suf)
      = Ok None).
Proof.
  intros Hp Hs Hd.
  assert (E : re_search (pre ++ lbrace :: a ++ rbrace :: mid ++ lbrace :: b
                         ++ rbrace :: suf)
              = Some (lbrace :: a ++ rbrace :: mid ++ lbrace :: b ++ [rbrace])).
  { replace (a ++ rbrace :: mid ++ lbrace :: b ++ rbrace :: suf)
      with ((a ++ rbrace :: mid ++ lbrace :: b) ++ rbrace :: suf)
      by (repeat (rewrite <- app_assoc; cbn [app]); reflexivity).
    rewrite re_search_first_to_last by assumption.
    repeat (rewrite <- app_assoc; cbn [app]). reflexivity. }
  split; [exact E|]. unfold parse_reply, parse_block. rewrite E, Hd.
  split; [reflexivity|]. now intros ->.
Qed.

(** X7: [eval.py] and [eval1.py] enter the rendering of the report exactly
    when the search found a text that the decoder turned into an object
    with at least one key; an empty object, though it decodes, takes the
    warning branch and is shown as raw output, like a reply that was not
    parsed.  (Whether the rendering then succeeds is another matter.) *)
Theorem report_branch_needs_nonempty_object (raw : str) :
  (forall d,
     branch_taken json_loads raw = Ok (RenderReport d)
     <-> d <> [] /\ exists m, re_search raw = Some m /\ json_loads m = Ok d)
  /\ (forall m,
        re_search raw = Some m -> json_loads m = Ok [] ->
        branch_taken json_loads raw = Ok (WarnAndShowRaw raw))
  /\ (re_search raw = None ->
      branch_taken json_loads raw = Ok (WarnAndShowRaw raw)).
Proof.
  unfold branch_taken, parse_block. split; [|split].
  - intros d. split.
    + destruct (re_search raw) as [m|]; [|discriminate].
      destruct (json_loads m) as [[|kv d']|e] eqn:E; cbn [bind].
      * discriminate.
      * intros [= <-]. split; [discriminate|]. now exists m.
      * destruct (exn_cls e); discriminate.
    + intros [Hne (m & -> & ->)]. cbn [bind].
      destruct d; [congruence | reflexivity].
  - intros m -> ->. reflexivity.
  - intros ->. reflexivity.
Qed.

End Decoder.

Lemma two_objects_are_searched_as_one_witness :
  re_search (lit "A: " ++ lbrace :: lit "x" ++ rbrace :: lit " B: "
             ++ lbrace :: lit "y" ++ rbrace :: lit " end")
  = Some (lbrace :: lit "x" ++ rbrace :: lit " B: " ++ lbrace :: lit "y"
          ++ [rbrace])
  /\ parse_reply sample_decoder
       (lit "A: " ++ lbrace :: lit "x" ++ rbrace :: lit " B: "
        ++ lbrace :: lit "y" ++ rbrace :: lit " end")
     = not_parsed
         (lit "A: " ++ lbrace :: lit "x" ++ rbrace :: lit " B: "
          ++ lbrace :: lit "y" ++ rbrace :: lit " end")
  /\ (exn_cls (Exn JSONDecodeError
                 (lit "Expecting value: line 1 column 1 (char 0)"))
      = JSONDecodeError ->
      parse_block sample_decoder
        (lit "A: " ++ lbrace :: lit "x" ++ rbrace :: lit " B: "
         ++ lbrace :: lit "y" ++ rbrace :: lit " end")
      = Ok None).
Proof.
  apply (two_objects_are_searched_as_one sample_decoder
           (lit "A: ") (lit "x") (lit " B: ") (lit "y") (lit " end")).
  1-2: intros H; cbv in H; intuition discriminate.
  reflexivity.
Defined.

End ParserMore.

(** ** More on the multi-team loop *)

Module BatchMore.

Import Extractor Parser Batch PyFacts ParserFacts BatchFacts Display.
Import Samples MoreSamples.

Lemma replace_zip_stem (stem : str) :
  ~ In 46%N stem -> replace (lit ".zip") [] (stem ++ lit ".zip") = stem.
Proof.
  unfold replace. induction stem as [|c stem IH]; intros Hn;
    [reflexivity|].
  cbn [app replace_from].
  change (lit ".zip") with [46%N; 122%N; 105%N; 112%N] in *.
  cbn [starts_with].
  destruct (N.eqb_spec 46 c) as [<-|_]; [exfalso; apply Hn; now left|].
  cbn [andb]. f_equal. apply IH. intros H. apply Hn. now right.
Qed.

Section Loop.

Variable json_loads : str -> result dict.

Lemma process_names (v : variant) (rubric_text : str) (u : upload) (e : entry) :
  process json_loads v rubric_text u = Ok (Some e) ->
  Team_Name e = replace (lit ".zip") [] (upload_name u).
Proof.
  unfold process, extract_submission_text, evaluate_submission.
  destruct (unzip u) as [files|x]; cbn [bind]; [|discriminate].
  destruct (llm u _) as [reply|x]; cbn [bind]; [|discriminate].
  destruct v; try destruct (is_invalid _); intros [= <-]; reflexivity.
Qed.

(** X8: in the multi-team scripts a reply without an opening brace does not
    fail the submission: it gets an entry with score 0 and the summary
    [No summary], whose details are the failure sentinel with the raw reply,
    and for which [evaltable.py] shows no table of criteria. *)
Theorem unparsed_reply_scores_zero
    (v : variant) (rubric_text : str) (all_results : list entry)
    (u : upload) (files : list file) (reply : response) :
  v = Eval2 \/ v = EvalTable ->
  unzip u = Ok files ->
  llm u (Prompt.compose v rubric_text (strip (extract_files v files [])))
  = Ok reply ->
  ~ In lbrace (raw_of reply) ->
  step json_loads v rubric_text all_results u
  = all_results
    ++ [ {| Team_Name := replace (lit ".zip") [] (upload_name u);
            Score := PInt 0;
            Summary := PStr (lit "No summary");
            Details := [(lit "error", PStr (lit "Invalid JSON"));
                        (lit "raw", PStr (raw_of reply))] |} ]
  /\ shows_criteria
       {| Team_Name := replace (lit ".zip") [] (upload_name u);
          Score := PInt 0;
          Summary := PStr (lit "No summary");
          Details := [(lit "error", PStr (lit "Invalid JSON"));
                      (lit "raw", PStr (raw_of reply))] |} = false.
Proof.
  intros Hv Hzip Hllm Hn. split; [|reflexivity].
  unfold step, process, extract_submission_text, evaluate_submission.
  rewrite Hzip. cbn [bind]. rewrite Hllm. cbn [bind].
  unfold parse_reply. rewrite re_search_none by assumption.
  destruct Hv as [-> | ->]; reflexivity.
Qed.

Lemma evaluate_all_cons (v : variant) (rubric_text : str)
    (u : upload) (us : list upload) :
  evaluate_all json_loads v rubric_text (u :: us)
  = step json_loads v rubric_text [] u
    ++ evaluate_all json_loads v rubric_text us.
Proof.
  unfold evaluate_all at 1. cbn [fold_left]. apply loop_appends.
Qed.

Lemma eval2_never_passes_over (rubric_text : str) (u : upload) :
  process json_loads Eval2 rubric_text u <> Ok None.
Proof.
  unfold process, extract_submission_text, evaluate_submission.
  destruct (unzip u); cbn [bind]; [|discriminate].
  destruct (llm u _); cbn [bind]; discriminate.
Qed.

Lemma process_raises_inv (v : variant) (rubric_text : str) (u : upload) (x : exn) :
  process json_loads v rubric_text u = Raise x -> raises_with v rubric_text u x.
Proof.
  unfold process, extract_submission_text, evaluate_submission, raises_with.
  destruct (unzip u) as [files|x'] eqn:Ez; cbn [bind].
  - destruct (llm u _) as [reply|x'] eqn:El; cbn [bind].
    + destruct v; try destruct (is_invalid _); discriminate.
    + intros [= <-]. right. now exists files.
  - intros [= <-]. now left.
Qed.

Lemma eval2_entries (rubric_text : str) (uploads : list upload) :
  Forall2
    (fun u e =>
       (exists x, raises_with Eval2 rubric_text u x /\ e = error_entry u x)
       \/ ((forall x, ~ raises_with Eval2 rubric_text u x)
           /\ Team_Name e = replace (lit ".zip") [] (upload_name u)))
    uploads (evaluate_all json_loads Eval2 rubric_text uploads).
Proof.
  induction uploads as [|u us IH]; [constructor|].
  rewrite evaluate_all_cons. unfold step.
  destruct (process json_loads Eval2 rubric_text u) as [[e|]|x] eqn:E;
    cbn [app].
  - constructor; [|exact IH]. right. split.
    + intros x Hx. rewrite (process_raises json_loads Eval2 rubric_text u x Hx) in E.
      discriminate.
    + now apply (process_names Eval2 rubric_text).
  - now apply eval2_never_passes_over in E.
  - constructor; [|exact IH]. left. exists x. split; [|reflexivity].
    now apply process_raises_inv.
Qed.

Lemma evaltable_length (rubric_text : str) (uploads : list upload) :
  length (evaluate_all json_loads EvalTable rubric_text uploads)
  <= length uploads.
Proof.
  induction uploads as [|u us IH]; [apply le_n|].
  rewrite evaluate_all_cons, length_app. unfold step.
  destruct (process json_loads EvalTable rubric_text u) as [[e|]|x];
    cbn [length app Nat.add]; lia.
Qed.

(** X9: [eval2.py] gives every upload exactly one entry, in the order of
    the uploads: the error entry, which keeps the name of the upload with
    its [.zip], when the extraction or the remote call raises, and
    otherwise an entry named after the upload without [.zip];
    [evaltable.py], which passes over invalid submissions, never gives more
    entries than there are uploads. *)
Theorem one_entry_per_upload (rubric_text : str) (uploads : list upload) :
  Forall2
    (fun u e =>
       (exists x, raises_with Eval2 rubric_text u x
                  /\ e = {| Team_Name := upload_name u;
                            Score := PInt 0;
                            Summary := PStr (lit "Error: " ++ exn_str x);
                            Details := [] |})
       \/ ((forall x, ~ raises_with Eval2 rubric_text u x)
           /\ Team_Name e = replace (lit ".zip") [] (upload_name u)))
    uploads (evaluate_all json_loads Eval2 rubric_text uploads)
  /\ length (evaluate_all json_loads Eval2 rubric_text uploads)
     = length uploads
  /\ length (evaluate_all json_loads EvalTable rubric_text uploads)
     <= length uploads.
Proof.
  split; [exact (eval2_entries rubric_text uploads)|].
  split; [|apply evaltable_length].
  symmetry. exact (Forall2_length (eval2_entries rubric_text uploads)).
Qed.

(** X10: the entry of a submission that went through is named after the
    archive without its [.zip], when the rest of the name has no full
    stop. *)
Theorem team_name_is_archive_stem
    (v : variant) (rubric_text : str) (u : upload) (stem : str) (e : entry) :
  upload_name u = stem ++ lit ".zip" ->
  ~ In 46%N stem ->
  process json_loads v rubric_text u = Ok (Some e) ->
  Team_Name e = stem.
Proof.
  intros Hname Hstem H.
  rewrite (process_names v rubric_text u e H), Hname.
  now apply replace_zip_stem.
Qed.

End Loop.

Lemma unparsed_reply_scores_zero_witness :
  step table_decoder EvalTable (lit "Innovation - 15") [] silent_upload
  = []
    ++ [ {| Team_Name := replace (lit ".zip") [] (upload_name silent_upload);
            Score := PInt 0;
            Summary := PStr (lit "No summary");
            Details := [(lit "error", PStr (lit "Invalid JSON"));
                        (lit "raw",
                         PStr (raw_of (Response
                                 (Some (lit "I cannot evaluate this submission."))
                                 (lit "content=..."))))] |} ]
  /\ shows_criteria
       {| Team_Name := replace (lit ".zip") [] (upload_name silent_upload);
          Score := PInt 0;
          Summary := PStr (lit "No summary");
          Details := [(lit "error", PStr (lit "Invalid JSON"));
                      (lit "raw",
                       PStr (raw_of (Response
                               (Some (lit "I cannot evaluate this submission."))
                               (lit "content=..."))))] |} = false.
Proof.
  apply (unparsed_reply_scores_zero table_decoder EvalTable
           (lit "Innovation - 15") [] silent_upload
           [text_file "main.py" "x = 1"]
           (Response (Some (lit "I cannot evaluate this submission."))
                     (lit "content=..."))).
  - now right.
  - reflexivity.
  - reflexivity.
  - intros H; cbv in H; intuition discriminate.
Defined.

Lemma team_name_is_archive_stem_witness :
  Team_Name
    {| Team_Name := lit "team3"; Score := PInt 85;
       Summary := PStr (lit "ok");
       Details := [(lit "total_score", PInt 85);
                   (lit "summary", PStr (lit "ok"))] |}
  = lit "team3".
Proof.
  apply (team_name_is_archive_stem table_decoder Eval2
           (lit "Innovation - 15") good_upload (lit "team3")).
  - reflexivity.
  - intros H; cbv in H; intuition discriminate.
  - vm_compute. reflexivity.
Defined.

End BatchMore.

(** ** What is shown *)

Module DisplayFacts.

Import Batch Display Normalizer.

Lemma summary_rows_shift (n : nat) (board : list entry) :
  map (fun p : nat * entry =>
         let (idx, e) := p in
         {| Rank := idx + 1; Row_Team_Name := Team_Name e;
            Row_Score := Score e; Row_Summary := Summary e |})
      (combine (seq n (length board)) board)
  = map (fun p : nat * entry =>
           let (rank, e) := p in
           {| Rank := rank; Row_Team_Name := Team_Name e;
              Row_Score := Score e; Row_Summary := Summary e |})
        (combine (seq (S n) (length board)) board).
Proof.
  revert n. induction board as [|e es IH]; intros n; [reflexivity|].
  cbn [length seq combine map]. rewrite IH. now rewrite Nat.add_1_r.
Qed.

Lemma ranks_of_rows (n : nat) (board : list entry) :
  map Rank
    (map (fun p : nat * entry =>
            let (rank, e) := p in
            {| Rank := rank; Row_Team_Name := Team_Name e;
               Row_Score := Score e; Row_Summary := Summary e |})
         (combine (seq n (length board)) board))
  = seq n (length board).
Proof.
  revert n. induction board as [|e es IH]; intros n; [reflexivity|].
  cbn [length seq combine map Rank]. now rewrite IH.
Qed.

(** X11: the summary table of [evaltable.py] has one row per entry of the
    leaderboard, in its order, and the rank it computes for an entry is the
    rank under which the entry is shown; an empty leaderboard gives no
    table. *)
Theorem summary_table_ranks_match (board : list entry) :
  summary_rows board
  = map (fun p : nat * entry =>
           let (rank, e) := p in
           {| Rank := rank; Row_Team_Name := Team_Name e;
              Row_Score := Score e; Row_Summary := Summary e |})
        (enumerate1 board)
  /\ map Rank (summary_rows board) = seq 1 (length board)
  /\ (summary_table board = None <-> board = []).
Proof.
  assert (E := summary_rows_shift 0 board).
  split; [exact E|]. split.
  - unfold summary_rows. rewrite E. apply ranks_of_rows.
  - destruct board; cbn [summary_table]; split; intros H;
      try reflexivity; discriminate.
Qed.

(** X12: the final-score metric of [eval1.py] needs a number: a decoded
    result without [total_score], or with a string for it, makes
    [round] raise, outside any handler; an integer total is shown rescaled
    and a float total rescaled and rounded. *)
Theorem final_metric_needs_a_number (round1 : float -> float) (parsed : dict) :
  (dict_lookup (lit "total_score") parsed = None ->
   final_metric round1 parsed
   = Raise (Exn OtherException
              (lit "type str doesn't define __round__ method")))
  /\ (forall s,
        dict_lookup (lit "total_score") parsed = Some (PStr s) ->
        final_metric round1 parsed
        = Raise (Exn OtherException
                   (lit "type str doesn't define __round__ method")))
  /\ (forall z,
        dict_lookup (lit "total_score") parsed = Some (PInt z) ->
        final_metric round1 parsed
        = Ok (PInt (if (z <=? 10)%Z then z * 10 else z)))
  /\ (forall f,
        dict_lookup (lit "total_score") parsed = Some (PFloat f) ->
        final_metric round1 parsed
        = Ok (PFloat (round1 (if (f <=? 10)%float then (f * 10)%float else f)))).
Proof.
  unfold final_metric, final_score, dict_get.
  split; [|split; [|split]].
  - intros ->. reflexivity.
  - intros s ->. reflexivity.
  - intros z ->. cbn [rescale_total]. now destruct (z <=? 10)%Z.
  - intros f ->. cbn [rescale_total]. now destruct (f <=? 10)%float.
Qed.

(** X13: rescaling does not keep the order of totals: a total from 1 to 10
    is shown above every larger total that stays below ten times it, so
    that 10 is shown as 100 and 11 as 11. *)
Theorem rescaling_inverts_order (low high : Z) :
  (1 <= low <= 10)%Z -> (10 < high < low * 10)%Z ->
  exists shown_low shown_high,
    rescale_total (PInt low) = PInt shown_low
    /\ rescale_total (PInt high) = PInt shown_high
    /\ (low < high)%Z /\ (shown_high < shown_low)%Z.
Proof.
  intros Hl Hh. exists (low * 10)%Z, high. cbn [rescale_total].
  replace (low <=? 10)%Z with true by (symmetry; apply Z.leb_le; lia).
  replace (high <=? 10)%Z with false by (symmetry; apply Z.leb_gt; lia).
  repeat split; lia.
Qed.

Lemma rescaling_inverts_order_witness :
  exists shown_low shown_high,
    rescale_total (PInt 10) = PInt shown_low
    /\ rescale_total (PInt 11) = PInt shown_high
    /\ (10 < 11)%Z /\ (shown_high < shown_low)%Z.
Proof.
  apply (rescaling_inverts_order 10 11); lia.
Defined.

(** X14: an integer total from 0 to 100 is still from 0 to 100 after the
    rescaling, and a criterion score from 0 to 30 is still from 0 to 30. *)
Theorem rescaling_stays_in_range (round1 : float -> float) (z : Z) :
  ((0 <= z <= 100)%Z ->
   exists shown, rescale_total (PInt z) = PInt shown /\ (0 <= shown <= 100)%Z)
  /\ ((0 <= z <= 30)%Z ->
      exists shown,
        rescale_score round1 (PInt z) = PInt shown /\ (0 <= shown <= 30)%Z).
Proof.
  cbn [rescale_total rescale_score].
  split; intros H; destruct (Z.leb_spec z 10); eexists; split;
    try reflexivity; lia.
Qed.

End DisplayFacts.

(** ** More on the prompt *)

Module PromptMore.

Import Prompt.

(** X15: the length of the prompt is that of the template, of the rubric,
    which is not shortened, and of at most 20000 characters of submission
    text. *)
Theorem prompt_length (v : variant) (rubric_text submission_text : str) :
  len (compose v rubric_text submission_text)
  = (match v with
     | Eval => 656
     | Eval1 => 739
     | Eval2 => 706
     | EvalTable => 1295
     end
     + len rubric_text + Z.min (len submission_text) 20000)%Z.
Proof.
  unfold compose, slice_to, budget, len.
  rewrite !length_app, length_firstn.
  assert (H : (Z.of_nat (length (head v)) + Z.of_nat (length middle)
               + Z.of_nat (length (tail v))
               = match v with
                 | Eval => 656
                 | Eval1 => 739
                 | Eval2 => 706
                 | EvalTable => 1295
                 end)%Z) by (destruct v; vm_compute; reflexivity).
  lia.
Qed.

End PromptMore.

(** ** More on the leaderboard *)

Module LeaderboardMore.

Import Batch Board LeaderboardFacts Samples MoreSamples.

Section Comparisons.

Variable py_lt : pyval -> pyval -> result bool.

Lemma insert_perm (x : entry) (l r : list entry) :
  insert py_lt x l = Ok r -> Permutation r (x :: l).
Proof.
  revert r. induction l as [|y ys IH]; intros r; cbn [insert].
  - now intros [= <-].
  - destruct (py_lt (Score y) (Score x)) as [[|]|e]; cbn [bind];
      [|now intros [= <-]|discriminate].
    destruct (insert py_lt x ys) as [r'|e]; cbn [bind]; [|discriminate].
    intros [= <-]. rewrite (IH r' eq_refl). apply perm_swap.
Qed.

Lemma sort_ascending_perm (l s : list entry) :
  sort_ascending py_lt l = Ok s -> Permutation s l.
Proof.
  revert s. induction l as [|x xs IH]; intros s; cbn [sort_ascending].
  - now intros [= <-].
  - destruct (sort_ascending py_lt xs) as [s'|e]; cbn [bind]; [|discriminate].
    intros H. rewrite (insert_perm x s' s H). constructor. now apply IH.
Qed.

(** X16: a leaderboard of no result or of one result is made without any
    comparison, whatever the score is; with two results or more, when [<]
    raises on the scores of every two results (scores that are [None] or
    objects, say), no leaderboard is made and the exception leaves
    [sorted], which is in no [try]. *)
Theorem leaderboard_needs_comparable_scores (all_results : list entry) :
  (length all_results <= 1 -> leaderboard py_lt all_results = Ok all_results)
  /\ (2 <= length all_results ->
      (forall x y, In x all_results -> In y all_results ->
                   exists e, py_lt (Score x) (Score y) = Raise e) ->
      exists e, leaderboard py_lt all_results = Raise e).
Proof.
  split.
  - destruct all_results as [|a [|b l]]; cbn [length]; intros H;
      [reflexivity | reflexivity | lia].
  - intros Hlen Hraise. unfold leaderboard.
    assert (Hrev : 2 <= length (rev all_results)) by now rewrite length_rev.
    destruct (rev all_results) as [|x [|x' xs]] eqn:E; cbn [length] in Hrev;
      try lia.
    cbn [sort_ascending].
    destruct (sort_ascending py_lt xs) as [s0|e0] eqn:E0; cbn [bind];
      [|now exists e0].
    destruct (insert py_lt x' s0) as [s|e] eqn:Es; cbn [bind];
      [|now exists e].
    assert (P := insert_perm x' s0 s Es).
    destruct s as [|y ys];
      [apply Permutation_length in P; discriminate P|].
    cbn [insert].
    assert (Hin : forall z, In z (x :: x' :: xs) -> In z all_results).
    { intros z Hz. apply in_rev. now rewrite E. }
    destruct (Hraise y x) as [e He].
    + apply Hin. right.
      assert (Hy : In y (x' :: s0))
        by (eapply Permutation_in; [exact P | now left]).
      destruct Hy as [<-|Hy]; [now left|]. right.
      eapply Permutation_in; [exact (sort_ascending_perm xs s0 E0) | exact Hy].
    + apply Hin. now left.
    + rewrite He. now exists e.
Qed.

End Comparisons.

Lemma leaderboard_needs_comparable_scores_witness :
  exists e, leaderboard lt_on_ints [unscored "alpha"; unscored "beta"] = Raise e.
Proof.
  apply (proj2 (leaderboard_needs_comparable_scores lt_on_ints
                  [unscored "alpha"; unscored "beta"])).
  - apply le_n.
  - intros x y Hx Hy. cbn in Hx, Hy.
    destruct Hx as [<-|[<-|[]]]; destruct Hy as [<-|[<-|[]]];
      eexists; reflexivity.
Defined.

Section Resorting.

Variable key : pyval -> Z.
Variable py_lt : pyval -> pyval -> result bool.

Lemma sort_by_key_fixed (l : list entry) :
  ascending key l -> sort_by_key key l = l.
Proof.
  unfold ascending. intros H.
  induction H as [|x xs Hs IH Hx]; [reflexivity|].
  cbn [sort_by_key]. rewrite IH.
  destruct xs as [|y ys]; [reflexivity|]. cbn [insert_by_key].
  inversion Hx as [|? ? Hxy _]; subst.
  replace (key_of key y <? key_of key x)%Z with false
    by (symmetry; apply Z.ltb_ge; exact Hxy).
  reflexivity.
Qed.

(** X17: sorting a leaderboard again gives the same leaderboard: for
    results whose scores [<] puts in order, the board is already in the
    order in which [sorted] would put it. *)
Theorem leaderboard_is_stable_under_resorting
    (all_results board : list entry) :
  ordered_by_key key py_lt all_results ->
  leaderboard py_lt all_results = Ok board ->
  leaderboard py_lt board = Ok board.
Proof.
  intros H E.
  rewrite (leaderboard_by_key key py_lt all_results H) in E.
  injection E as <-.
  rewrite (leaderboard_by_key key py_lt).
  - rewrite rev_involutive.
    now rewrite (sort_by_key_fixed _ (sort_by_key_ascending key _)).
  - intros x y Hx Hy. apply H.
    + apply in_rev. eapply Permutation_in; [apply sort_by_key_perm|].
      apply in_rev. exact Hx.
    + apply in_rev. eapply Permutation_in; [apply sort_by_key_perm|].
      apply in_rev. exact Hy.
Qed.

End Resorting.

Lemma leaderboard_is_stable_under_resorting_witness :
  leaderboard lt_on_ints
    [scored "beta" 90; scored "gamma" 90; scored "alpha" 55]
  = Ok [scored "beta" 90; scored "gamma" 90; scored "alpha" 55].
Proof.
  apply (leaderboard_is_stable_under_resorting int_key lt_on_ints
           three_results).
  - intros x y Hx Hy. cbn in Hx, Hy.
    destruct Hx as [<-|[<-|[<-|[]]]]; destruct Hy as [<-|[<-|[<-|[]]]];
      reflexivity.
  - reflexivity.
Defined.

End LeaderboardMore.
